(** * Beautiful-Christmas-Tree: the dual-state blending engine

    A shallow embedding of the per-frame update code of the scene
    (src/App.tsx, src/components/SpiralLights.tsx, and the Experience and
    Ornaments components of src/unnamed/part_000 and part_001)
    and the properties its specification states about it.

    Numbers.  A JavaScript [number] is modelled as a real number: the
    arithmetic of the source is read as exact arithmetic, rounding of IEEE
    doubles is not modelled.  [Math.min], [Math.abs], [Math.sin],
    [Math.cos], [Math.PI] are [Rmin], [Rabs], [sin], [cos], [PI].
    Where a property turns on a result being hit exactly, the arithmetic
    of the blend and of the interpolated position is also given in
    binary64, in the module [Double], and the question is settled there.

    Randomness.  [Math.random()] reads the next entry of a stream of
    draws; the generators thread the cursor into that stream.

    React refs.  A [useRef] cell is a field of the state record of the
    component that owns it; a frame callback is a function from the old
    state (and the frame inputs) to the new state. *)

From Stdlib Require Import Reals Lra Lia List String Bool Arith Floats.
Set Warnings "-inexact-float".
Import ListNotations.
Open Scope R_scope.

(** ** three.js primitives used by the source *)

Module Three.

Record Vector3 : Type := mkVector3 { x : R; y : R; z : R }.

Record Euler : Type := mkEuler { ex : R; ey : R; ez : R }.

(** [THREE.MathUtils.lerp(x, y, t)] is [(1 - t) * x + t * y]. *)
Definition MathUtils_lerp (a b t : R) : R := (1 - t) * a + t * b.

(** [v.lerpVectors(v1, v2, alpha)]: [v1 + (v2 - v1) * alpha] on each
    component. *)
Definition lerpVectors (v1 v2 : Vector3) (alpha : R) : Vector3 :=
  mkVector3 (x v1 + (x v2 - x v1) * alpha)
            (y v1 + (y v2 - y v1) * alpha)
            (z v1 + (z v2 - z v1) * alpha).

(** [this.lerp(v, alpha)]: [this += (v - this) * alpha] on each
    component. *)
Definition lerp (this v : Vector3) (alpha : R) : Vector3 :=
  mkVector3 (x this + (x v - x this) * alpha)
            (y this + (y v - y this) * alpha)
            (z this + (z v - z this) * alpha).

Definition multiplyScalar (v : Vector3) (s : R) : Vector3 :=
  mkVector3 (x v * s) (y v * s) (z v * s).

Definition setScalar (s : R) : Vector3 := mkVector3 s s s.

(** The orientation of an [Object3D], kept as the sequence of calls that
    produced it: [rotation.copy(e)], [lookAt(target)] issued while the
    object sits at [eye], and the local-axis rotations [rotateX],
    [rotateY] applied on top of an orientation. *)
Inductive Orientation : Type :=
| FromEuler (e : Euler)
| LookAt (eye target : Vector3)
| RotateX (o : Orientation) (angle : R)
| RotateY (o : Orientation) (angle : R).

(** The direction from the object to the point it looks at. *)
Definition lookDirection (eye target : Vector3) : Vector3 :=
  mkVector3 (x target - x eye) (y target - y eye) (z target - z eye).

Record Object3D : Type := mkObject3D {
  position : Vector3;
  orientation : Orientation;
  scale : Vector3
}.

Definition new_Object3D : Object3D :=
  mkObject3D (mkVector3 0 0 0) (FromEuler (mkEuler 0 0 0)) (mkVector3 1 1 1).

Definition position_copy (p : Vector3) (o : Object3D) : Object3D :=
  mkObject3D p (orientation o) (scale o).

Definition scale_copy (s : Vector3) (o : Object3D) : Object3D :=
  mkObject3D (position o) (orientation o) s.

Definition rotation_copy (e : Euler) (o : Object3D) : Object3D :=
  mkObject3D (position o) (FromEuler e) (scale o).

(** [o.lookAt(target)] turns the object, at its current position, toward
    [target]. *)
Definition lookAt (target : Vector3) (o : Object3D) : Object3D :=
  mkObject3D (position o) (LookAt (position o) target) (scale o).

Definition rotateX (angle : R) (o : Object3D) : Object3D :=
  mkObject3D (position o) (RotateX (orientation o) angle) (scale o).

Definition rotateY (angle : R) (o : Object3D) : Object3D :=
  mkObject3D (position o) (RotateY (orientation o) angle) (scale o).

End Three.

(** ** utils/math *)

Module UtilsMath.

(** Modelled from the spec: the helper [lerp] of utils/math, whose
    source file is missing.  Section 4.2 gives the smoothing law
    [current + (target - current) * min(rate * dt, 1)], and the callers
    pass the product [rate * dt] as third argument.  Section 4.3 uses the
    same helper as the plain interpolation [lerp(chaos, target, blend)]
    for a blend in [[0, 1]], where the two readings agree. *)
Definition lerp (current target t : R) : R :=
  current + (target - current) * Rmin t 1.

End UtilsMath.

(** ** Math.random as a stream of draws *)

Module Random.

(** A computation that may call [Math.random()]: it reads the stream
    from a cursor and returns the cursor after its last draw. *)
Definition Rand (A : Type) : Type := (nat -> R) -> nat -> A * nat.

Definition ret {A} (a : A) : Rand A := fun _ n => (a, n).

Definition bind {A B} (m : Rand A) (k : A -> Rand B) : Rand B :=
  fun s n => let (a, n') := m s n in k a s n'.

Definition random : Rand R := fun s n => (s n, S n).

(** The draws of [Math.random()] lie in [[0, 1)]. *)
Definition draws_in_unit (s : nat -> R) : Prop :=
  forall n, 0 <= s n < 1.

End Random.

Notation "v <- m ;; k" := (Random.bind m (fun v => k))
  (at level 61, m at next level, right associativity).

(** ** src/App.tsx *)

Module App.

Record Point2 : Type := mkPoint2 { px : R; py : R }.

(** The inbound gesture sample ([HandGesture] of ./types). *)
Record HandGesture : Type := mkHandGesture {
  isDetected : bool;
  isOpen : bool;
  position : Point2
}.

Record State : Type := mkState {
  targetMix : R;
  inputRef : Point2;
  gestureDetected : bool;
  debugMode : bool;
  userImages : list string
}.

(** [useState(1)], [useRef({x: 0, y: 0})], [useState(false)] twice,
    [useState([])]. *)
Definition init : State :=
  mkState 1 (mkPoint2 0 0) false false [].

(** [setTargetMix(prev => prev !== newTarget ? newTarget : prev)]. *)
Definition setTargetMix_if_changed (newTarget prev : R) : R :=
  if Req_dec_T prev newTarget then prev else newTarget.

Definition handleGesture (data : HandGesture) (st : State) : State :=
  if isDetected data then
    let newTarget := if isOpen data then 0 else 1 in
    mkState (setTargetMix_if_changed newTarget (targetMix st))
            (mkPoint2 (px (position data) * 1.2) (py (position data)))
            (isDetected data) (debugMode st) (userImages st)
  else
    mkState (targetMix st) (inputRef st)
            (isDetected data) (debugMode st) (userImages st).

(** [handleMouseMove], with the pointer at [(clientX, clientY)] in a
    window of [innerWidth] by [innerHeight]. *)
Definition handleMouseMove (clientX clientY innerWidth innerHeight : R)
           (st : State) : State :=
  if negb (gestureDetected st) && debugMode st then
    mkState (targetMix st)
            (mkPoint2 (clientX / innerWidth * 2 - 1)
                      (- (clientY / innerHeight) * 2 + 1))
            (gestureDetected st) (debugMode st) (userImages st)
  else st.

Definition toggleState (st : State) : State :=
  mkState (if Req_dec_T (targetMix st) 1 then 0 else 1)
          (inputRef st) (gestureDetected st) (debugMode st) (userImages st).

Section Upload.

(** The browser's [File] objects and [URL.createObjectURL]. *)
Variable File : Type.
Variable createObjectURL : File -> string.

(** [files] is [e.target.files]: [None] when the input has no file
    list. *)
Definition handleFileChange (files : option (list File)) (st : State)
  : State :=
  match files with
  | Some fs =>
      if (0 <? List.length fs)%nat then
        mkState (targetMix st) (inputRef st) (gestureDetected st)
                (debugMode st) (map createObjectURL (firstn 30 fs))
      else st
  | None => st
  end.

End Upload.

End App.

(** ** Experience (src/unnamed/part_000): scene controller and photo count *)

Module Experience.

Import Three.

(** The refs of [SceneController], the camera position and the [y]
    rotation of the rotating group ([None] while [groupRef.current] is
    null). *)
Record State : Type := mkState {
  currentInput : App.Point2;
  velocity : R;
  lastX : R;
  camera_position : Vector3;
  group_rotation_y : option R
}.

(** Refs start at [{x: 0, y: 0}], [0], [0]; the canvas puts the camera
    at [[0, 0, 32]]. *)
Definition init (group : option R) : State :=
  mkState (App.mkPoint2 0 0) 0 0 (mkVector3 0 0 32) group.

Definition useFrame (inputRef : App.Point2) (delta : R) (st : State)
  : State :=
  let safeDelta := Rmin delta 0.1 in
  let targetX := App.px inputRef in
  let targetY := App.py inputRef in
  let inputSmoothing := 3.0 * safeDelta in
  let cx := MathUtils_lerp (App.px (currentInput st)) targetX inputSmoothing in
  let cy := MathUtils_lerp (App.py (currentInput st)) targetY inputSmoothing in
  let camX := cx * 4 in
  let camY := cy * 2 in
  let camZ := 32 + Rabs cx * 2 in
  let cam := lerp (camera_position st) (mkVector3 camX camY camZ)
                  (2.0 * safeDelta) in
  match group_rotation_y st with
  | Some ry =>
      let deltaX := cx - lastX st in
      let v1 := velocity st + deltaX * 0.5 in
      let v2 := v1 * 0.95 in
      mkState (App.mkPoint2 cx cy) v2 cx cam (Some (ry + (0.002 + v2)))
  | None =>
      mkState (App.mkPoint2 cx cy) (velocity st) (lastX st) cam None
  end.

(** [n] ticks with the same pointer input and frame deltas [dts]. *)
Fixpoint run (inputRef : App.Point2) (dts : list R) (st : State) : State :=
  match dts with
  | [] => st
  | dt :: rest => run inputRef rest (useFrame inputRef dt st)
  end.

(** The smoothed horizontal input has stopped changing: it has reached
    the pointer input and equals the value kept from the frame before. *)
Definition settled (inputRef : App.Point2) (st : State) : Prop :=
  App.px (currentInput st) = App.px inputRef /\
  lastX st = App.px (currentInput st).

(** [userImages] is an optional prop. *)
Definition photoCount (userImages : option (list string)) : nat :=
  match userImages with
  | Some imgs => if (0 <? List.length imgs)%nat then List.length imgs else 10%nat
  | None => 10%nat
  end.

End Experience.

(** ** Instance buffers *)

Module InstancedMesh.

Import Three.

(** The instance matrix buffer of an [InstancedMesh]: one composed
    transform (position, orientation, scale of the dummy object at the
    time of [updateMatrix]) per instance. *)
Definition Buffer : Type := list Object3D.

Definition new_buffer (count : nat) : Buffer := repeat new_Object3D count.

(** [mesh.setMatrixAt(i, m)]; a write past the end of the typed array
    leaves it as it is. *)
Fixpoint setMatrixAt (i : nat) (m : Object3D) (buf : Buffer) : Buffer :=
  match buf, i with
  | [], _ => []
  | _ :: rest, O => m :: rest
  | a :: rest, S j => a :: setMatrixAt j m rest
  end.

(** The shape shared by the loops that fill a mesh: for each item, from
    index [i] on, [body] updates the shared dummy object, and the dummy's
    matrix is written to the instance of that index. *)
Fixpoint forEach_write {A : Type} (body : nat -> A -> Object3D -> Object3D)
         (items : list A) (i : nat) (d : Object3D) (buf : Buffer)
  : Object3D * Buffer :=
  match items with
  | [] => (d, buf)
  | item :: rest =>
      let d' := body i item d in
      forEach_write body rest (S i) d' (setMatrixAt i d' buf)
  end.

(** The matrix of instance [i] of a mesh ref. *)
Definition instance (mesh : option Buffer) (i : nat) : option Object3D :=
  match mesh with
  | Some buf => nth_error buf i
  | None => None
  end.

End InstancedMesh.

(** ** src/components/SpiralLights.tsx *)

Module SpiralLights.

Import Three InstancedMesh.

Definition count : nat := 420.

(** [currentMixRef], the shared [dummy] object and the instance buffer
    of [meshRef.current] ([None] while the ref is null). *)
Record State : Type := mkState {
  currentMixRef : R;
  dummy : Object3D;
  mesh : option Buffer
}.

(** [useRef(1)], a fresh [Object3D], a mesh of [count] instances. *)
Definition init (mounted : bool) : State :=
  mkState 1 new_Object3D (if mounted then Some (new_buffer count) else None).

(** The scale written for light [i] at clock time [time]. *)
Definition pulse (time : R) (i : nat) : R :=
  sin (time * 3 + INR i * 0.1) * 0.05 + 0.15.

Section Layout.

(** The two flat coordinate arrays returned by
    [generateSpiralData(count, 19, 7.5, 9)] of utils/math, read by
    index. *)
Variable target : nat -> R.
Variable chaos : nat -> R.

Definition targetAt (i : nat) : Vector3 :=
  mkVector3 (target (i * 3)) (target (i * 3 + 1)) (target (i * 3 + 2)).

Definition chaosAt (i : nat) : Vector3 :=
  mkVector3 (chaos (i * 3)) (chaos (i * 3 + 1)) (chaos (i * 3 + 2)).

(** The transform the frame loop composes for light [i]. *)
Definition frame_item (t time : R) (i : nat) (d : Object3D) : Object3D :=
  let tx := target (i * 3)%nat in
  let ty := target (i * 3 + 1)%nat in
  let tz := target (i * 3 + 2)%nat in
  let cx := chaos (i * 3)%nat in
  let cy := chaos (i * 3 + 1)%nat in
  let cz := chaos (i * 3 + 2)%nat in
  let px := UtilsMath.lerp cx tx t in
  let py := UtilsMath.lerp cy ty t in
  let pz := UtilsMath.lerp cz tz t in
  let d1 := position_copy (mkVector3 px py pz) d in
  scale_copy (setScalar (pulse time i)) d1.

(** [for (let i = 0; i < count; i++) { ...; setMatrixAt(i, ...) }]. *)
Definition frame_loop (t time : R) (d : Object3D) (buf : Buffer)
  : Object3D * Buffer :=
  forEach_write (fun i (_ : nat) => frame_item t time i)
                (seq 0 count) 0 d buf.

Definition useFrame (mixFactor elapsedTime delta : R) (st : State)
  : State :=
  match mesh st with
  | None => st
  | Some buf =>
      let speed := 2.0 * delta in
      let t := UtilsMath.lerp (currentMixRef st) mixFactor speed in
      let (d, buf') := frame_loop t elapsedTime (dummy st) buf in
      mkState t d (Some buf')
  end.

(** The layout effect: every light at its target position, scale
    [0.12]. *)
Definition layout_item (i : nat) (d : Object3D) : Object3D :=
  scale_copy (setScalar 0.12) (position_copy (targetAt i) d).

Definition layout_loop (d : Object3D) (buf : Buffer)
  : Object3D * Buffer :=
  forEach_write (fun i (_ : nat) => layout_item i) (seq 0 count) 0 d buf.

Definition useLayoutEffect (st : State) : State :=
  match mesh st with
  | None => st
  | Some buf =>
      let (d, buf') := layout_loop (dummy st) buf in
      mkState (currentMixRef st) d (Some buf')
  end.

End Layout.

End SpiralLights.

(** ** Ornaments (src/unnamed/part_001) *)

Module Ornaments.

Import Three InstancedMesh Random.

Inductive OrnamentType : Type :=
| BALL | BOX | STAR | CANDY | CRYSTAL | PHOTO.

Definition type_eqb (a b : OrnamentType) : bool :=
  match a, b with
  | BALL, BALL | BOX, BOX | STAR, STAR
  | CANDY, CANDY | CRYSTAL, CRYSTAL | PHOTO, PHOTO => true
  | _, _ => false
  end.

(** [a > b] on numbers. *)
Definition gtb (a b : R) : bool := if Rlt_dec b a then true else false.

(** [color] is the hex string handed to [THREE.Color] ([None] for
    [undefined]). *)
Record OrnamentData : Type := mkOrnamentData {
  chaosPos : Vector3;
  targetPos : Vector3;
  rotation : Euler;
  color : option string;
  targetScale : Vector3;
  chaosScale : Vector3;
  chaosTilt : R
}.

(** *** Generation of the per-object data *)

Section Data.

(** [generateFoliageData(count, height, radius)] and
    [randomVector3(r)] of utils/math; the first returns the flat
    array [target], read by index.  Both may draw random numbers. *)
Variable generateFoliageData : nat -> R -> R -> Rand (nat -> R).
Variable randomVector3 : R -> Rand Vector3.

Definition pushOut (type : OrnamentType) : R :=
  if type_eqb type STAR then 1.15 else 1.08.

(** The chaos position and tilt of a PHOTO object. *)
Definition photo_chaos : Rand (Vector3 * R) :=
  u1 <- random ;;
  let theta := u1 * PI * 2 in
  u2 <- random ;;
  let radius := 14 + u2 * 4 in
  u3 <- random ;;
  let yHeight := (u3 - 0.5) * 20 in
  let cPos := mkVector3 (radius * cos theta) yHeight (radius * sin theta) in
  u4 <- random ;;
  ret (cPos, (u4 - 0.5) * 0.5).

Definition chaos_of (type : OrnamentType) : Rand (Vector3 * R) :=
  if type_eqb type PHOTO then photo_chaos
  else (cPos <- randomVector3 25 ;; ret (cPos, 0)).

(** [colors ? colors[Math.floor(Math.random() * colors.length)]
    : '#ffffff']. *)
Definition pick_color (colors : option (list string))
  : Rand (option string) :=
  match colors with
  | Some cs =>
      u <- random ;;
      ret (nth_error cs (Z.to_nat (Int_part (u * INR (List.length cs)))))
  | None => ret (Some "#ffffff"%string)
  end.

Definition baseScaleVec (type : OrnamentType) : Vector3 :=
  match type with
  | CANDY => mkVector3 0.2 1.5 0.2
  | PHOTO => mkVector3 1.0 1.0 1.0
  | STAR => setScalar 1.2
  | _ => mkVector3 1 1 1
  end.

Definition chaos_scale_of (type : OrnamentType) (targetScale : Vector3)
  : Rand Vector3 :=
  if type_eqb type PHOTO then
    (u <- random ;;
     let photoScale := 2.5 + u * 1.0 in
     ret (multiplyScalar targetScale photoScale))
  else ret targetScale.

(** One iteration of the generation loop. *)
Definition data_item (type : OrnamentType) (colors : option (list string))
           (scale : R) (target : nat -> R) (i : nat)
  : Rand OrnamentData :=
  let tPos :=
    multiplyScalar
      (mkVector3 (target (i * 3)%nat) (target (i * 3 + 1)%nat)
                 (target (i * 3 + 2)%nat))
      (pushOut type) in
  ct <- chaos_of type ;;
  colorHex <- pick_color colors ;;
  u <- random ;;
  let randScale := u * 0.4 + 0.8 in
  let tScale := multiplyScalar (baseScaleVec type) (scale * randScale) in
  cScale <- chaos_scale_of type tScale ;;
  r1 <- random ;;
  r2 <- random ;;
  ret (mkOrnamentData (fst ct) tPos (mkEuler (r1 * PI) (r2 * PI) 0)
                      colorHex tScale cScale (snd ct)).

(** [for (let i = ...; i < count; i++) items.push(...)], with [n]
    iterations left. *)
Fixpoint data_loop (type : OrnamentType) (colors : option (list string))
         (scale : R) (target : nat -> R) (n i : nat)
  : Rand (list OrnamentData) :=
  match n with
  | O => ret []
  | S n' =>
      item <- data_item type colors scale target i ;;
      rest <- data_loop type colors scale target n' (S i) ;;
      ret (item :: rest)
  end.

(** The memoised [data]; the prop [scale] defaults to [1]. *)
Definition data (type : OrnamentType) (count : nat)
           (colors : option (list string)) (scale : option R)
  : Rand (list OrnamentData) :=
  let scale := match scale with Some s => s | None => 1 end in
  target <- generateFoliageData count 18 7 ;;
  data_loop type colors scale target count 0.

End Data.

(** *** The instanced populations (every type but PHOTO) *)

(** [currentMixRef], the shared [dummy] object and the instance buffer
    of [meshRef.current] ([None] while the ref is null). *)
Record State : Type := mkState {
  currentMixRef : R;
  dummy : Object3D;
  mesh : option Buffer
}.

(** [useRef(1)], a fresh [Object3D], a mesh of [count] instances. *)
Definition init (count : nat) (mounted : bool) : State :=
  mkState 1 new_Object3D (if mounted then Some (new_buffer count) else None).

(** The body of [data.forEach] in the frame loop, on the shared dummy. *)
Definition frame_item (type : OrnamentType) (t : R) (item : OrnamentData)
           (d : Object3D) : Object3D :=
  let currentPos := lerpVectors (chaosPos item) (targetPos item) t in
  let d1 := position_copy currentPos d in
  let d2 :=
    if type_eqb type STAR && gtb t 0.8 then
      rotateX (PI / 2) (lookAt (mkVector3 0 (y currentPos) 0) d1)
    else rotation_copy (rotation item) d1 in
  let currentScale := lerpVectors (chaosScale item) (targetScale item) t in
  scale_copy currentScale d2.

(** [data.forEach((item, i) => { ...; setMatrixAt(i, ...) })]. *)
Definition frame_forEach (type : OrnamentType) (t : R)
           (items : list OrnamentData) (d : Object3D) (buf : Buffer)
  : Object3D * Buffer :=
  forEach_write (fun (_ : nat) item => frame_item type t item) items 0 d buf.

Definition useFrame (type : OrnamentType) (data : list OrnamentData)
           (mixFactor delta : R) (st : State) : State :=
  match mesh st with
  | None => st
  | Some buf =>
      if type_eqb type PHOTO then st
      else
        let speed := 2.0 * delta in
        let t := UtilsMath.lerp (currentMixRef st) mixFactor speed in
        let (d, buf') := frame_forEach type t data (dummy st) buf in
        mkState t d (Some buf')
  end.

(** The layout effect: every instance at its target transform. *)
Definition layout_item (item : OrnamentData) (d : Object3D) : Object3D :=
  rotation_copy (rotation item)
    (scale_copy (targetScale item) (position_copy (targetPos item) d)).

Definition layout_forEach (items : list OrnamentData)
           (d : Object3D) (buf : Buffer) : Object3D * Buffer :=
  forEach_write (fun (_ : nat) item => layout_item item) items 0 d buf.

Definition useLayoutEffect (type : OrnamentType) (data : list OrnamentData)
           (st : State) : State :=
  match mesh st with
  | None => st
  | Some buf =>
      if type_eqb type PHOTO then st
      else
        let (d, buf') := layout_forEach data (dummy st) buf in
        mkState (currentMixRef st) d (Some buf')
  end.

(** *** The PHOTO population: one [PhotoFrameMesh] per object *)

Module PhotoFrameMesh.

(** [img?.width || 1]: a dimension that is missing or zero counts as 1. *)
Definition or_one (v : option R) : R :=
  match v with
  | Some r => if Req_dec_T r 0 then 1 else r
  | None => 1
  end.

(** The arguments of the frame box, of the photo plane, and the position
    of the photo plane in the frame. *)
Record Geometry : Type := mkGeometry {
  frameArgs : R * R * R;
  photoArgs : R * R;
  photoPos : R * R * R
}.

(** The geometry memoised from the texture's image dimensions. *)
Definition geometry (img_width img_height : option R) : Geometry :=
  let width := or_one img_width in
  let height := or_one img_height in
  let aspect := width / height in
  let maxSize := 0.85 in
  let (pw, ph) :=
    if Rge_dec aspect 1 then (maxSize, maxSize / aspect)
    else (maxSize * aspect, maxSize) in
  let mSide := 0.08 in
  let mTop := 0.08 in
  let mBottom := 0.32 in
  let fw := pw + mSide * 2 in
  let fh := ph + mTop + mBottom in
  let py := (fh / 2) - mTop - (ph / 2) in
  mkGeometry (fw, fh, 0.05) (pw, ph) (0, py, 0.03).

(** An image dimension, when there is one, is not negative. *)
Definition dimension (v : option R) : Prop :=
  match v with
  | Some r => 0 <= r
  | None => True
  end.

(** [currentMixRef], the outer group of [groupRef.current] and the
    [z] rotation of the inner group of [innerRef.current] ([None]
    while a ref is null).  The group is kept in its own coordinates;
    the rotation of its parent is that of [Experience]. *)
Record State : Type := mkState {
  currentMixRef : R;
  group : option Object3D;
  inner_rotation_z : option R
}.

Definition init (mounted : bool) : State :=
  mkState 1 (if mounted then Some new_Object3D else None)
            (if mounted then Some 0 else None).

Definition useFrame (item : OrnamentData) (mixFactor : R)
           (camera_position : Vector3) (delta : R) (st : State) : State :=
  match group st, inner_rotation_z st with
  | Some g, Some rz =>
      let speed := 2.0 * delta in
      let t := UtilsMath.lerp (currentMixRef st) mixFactor speed in
      let vecPos := lerpVectors (chaosPos item) (targetPos item) t in
      let g1 := position_copy vecPos g in
      let vecScale := lerpVectors (chaosScale item) (targetScale item) t in
      let g2 := scale_copy vecScale g1 in
      if gtb t 0.8 then
        let g3 := lookAt (mkVector3 0 (y (position g2)) 0) g2 in
        let g4 := rotateY PI g3 in
        mkState t (Some g4) (Some (UtilsMath.lerp rz 0 speed))
      else
        let g3 := lookAt camera_position g2 in
        mkState t (Some g3) (Some (UtilsMath.lerp rz (chaosTilt item) speed))
  | _, _ => st
  end.

End PhotoFrameMesh.

(** What [data.map] renders for a PHOTO object: the loader of a user
    image, or a frame with one of the four fallback textures. *)
Inductive PhotoChild : Type :=
| SuspensePhotoOrnament (key : nat) (item : OrnamentData) (url : string)
| FallbackPhotoFrame (key : nat) (item : OrnamentData) (fallback : nat).

Definition fallbackTextures_length : nat := 4.

(** An empty string is falsy, like [undefined]. *)
Definition truthy (s : string) : bool :=
  match s with EmptyString => false | _ => true end.

Definition photo_child (userImages : list string) (i : nat)
           (item : OrnamentData) : PhotoChild :=
  let imgSrc :=
    if (0 <? List.length userImages)%nat then
      if (i <? List.length userImages)%nat then nth_error userImages i
      else None
    else None in
  let fallback := (i mod fallbackTextures_length)%nat in
  match imgSrc with
  | Some url =>
      if truthy url then SuspensePhotoOrnament i item url
      else FallbackPhotoFrame i item fallback
  | None => FallbackPhotoFrame i item fallback
  end.

(** [data.map((item, i) => ...)] from index [i] on. *)
Fixpoint photo_children (userImages : list string)
         (items : list OrnamentData) (i : nat) : list PhotoChild :=
  match items with
  | [] => []
  | item :: rest =>
      photo_child userImages i item :: photo_children userImages rest (S i)
  end.

(** The objects an [Ornaments] component puts in the scene: the
    instances of its mesh, or its photo frames. *)
Definition population_size (type : OrnamentType) (count : nat)
           (data : list OrnamentData) (userImages : list string) : nat :=
  if type_eqb type PHOTO then List.length (photo_children userImages data 0)
  else count.

End Ornaments.

(** ** The scene: populations over a sequence of frames *)

Module Scene.

Import Three Random.

(** What one rendered frame hands to the frame callbacks: the mix target
    passed down as [mixFactor], the clock's elapsed time and delta, and
    the camera position. *)
Record Frame : Type := mkFrame {
  mixFactor : R;
  elapsedTime : R;
  delta : R;
  camera : Vector3
}.

Fixpoint ornaments_run (type : Ornaments.OrnamentType)
         (data : list Ornaments.OrnamentData) (frames : list Frame)
         (st : Ornaments.State) : Ornaments.State :=
  match frames with
  | [] => st
  | f :: rest =>
      ornaments_run type data rest
        (Ornaments.useFrame type data (mixFactor f) (delta f) st)
  end.

Fixpoint spiral_run (target chaos : nat -> R) (frames : list Frame)
         (st : SpiralLights.State) : SpiralLights.State :=
  match frames with
  | [] => st
  | f :: rest =>
      spiral_run target chaos rest
        (SpiralLights.useFrame target chaos
           (mixFactor f) (elapsedTime f) (delta f) st)
  end.

Fixpoint photo_run (item : Ornaments.OrnamentData) (frames : list Frame)
         (st : Ornaments.PhotoFrameMesh.State)
  : Ornaments.PhotoFrameMesh.State :=
  match frames with
  | [] => st
  | f :: rest =>
      photo_run item rest
        (Ornaments.PhotoFrameMesh.useFrame item
           (mixFactor f) (camera f) (delta f) st)
  end.

(** [<Ornaments type="PHOTO" count={photoCount} userImages={userImages} />]
    as [SceneContent] mounts it: no [colors], no [scale]. *)
Definition photo_population
           (generateFoliageData : nat -> R -> R -> Rand (nat -> R))
           (randomVector3 : R -> Rand Vector3)
           (userImages : option (list string))
  : Rand (list Ornaments.PhotoChild) :=
  let photoCount := Experience.photoCount userImages in
  data <- Ornaments.data generateFoliageData randomVector3
            Ornaments.PHOTO photoCount None None ;;
  ret (Ornaments.photo_children
         (match userImages with Some imgs => imgs | None => [] end) data 0).

(** A frame whose mix target lies in [[0, 1]] and whose delta is
    positive. *)
Definition nominal_frame (f : Frame) : Prop :=
  0 <= mixFactor f <= 1 /\ 0 < delta f.

Definition unit_interval (v : R) : Prop := 0 <= v <= 1.

(** A point of the straight segment from [a] to [b]. *)
Definition on_segment (a b p : Vector3) : Prop :=
  exists s : R,
    0 <= s <= 1 /\
    x p = (1 - s) * x a + s * x b /\
    y p = (1 - s) * y a + s * y b /\
    z p = (1 - s) * z a + s * z b.

(** The point that divides the segment from [a] to [b] in the ratio
    [t]. *)
Definition point_at (a b : Vector3) (t : R) (p : Vector3) : Prop :=
  x p = (1 - t) * x a + t * x b /\
  y p = (1 - t) * y a + t * y b /\
  z p = (1 - t) * z a + t * z b.

(** Squared distance of a point from the vertical axis. *)
Definition horizontal_radius_sq (p : Vector3) : R := x p * x p + z p * z p.

(** The radii the components hand to the layout generators:
    [generateFoliageData(count, 18, 7)] and
    [generateSpiralData(count, 19, 7.5, 9)]. *)
Definition foliage_radius : R := 7.
Definition spiral_radius : R := 7.5.

(** The largest horizontal radius of a formed object: the foliage cone's
    base radius pushed out by the larger factor, or the spiral's. *)
Definition tree_outer_radius : R :=
  Rmax (foliage_radius * Ornaments.pushOut Ornaments.STAR) spiral_radius.

End Scene.

(** ** The application as a sequence of events *)

Module Events.

Section Handlers.

Variable File : Type.
Variable createObjectURL : File -> string.

(** The handlers of [App]: a gesture sample, a mouse move, the
    UNLEASH/FORM button, the mouse-mode button (it is rendered only while
    no gesture is detected) and a change of the file input. *)
Inductive Event : Type :=
| Gesture (data : App.HandGesture)
| MouseMove (clientX clientY innerWidth innerHeight : R)
| ToggleState
| ToggleDebug
| FileChange (files : option (list File)).

(** [onClick={() => setDebugMode(!debugMode)}]. *)
Definition toggleDebug (st : App.State) : App.State :=
  if App.gestureDetected st then st
  else App.mkState (App.targetMix st) (App.inputRef st)
                   (App.gestureDetected st) (negb (App.debugMode st))
                   (App.userImages st).

Definition handle (e : Event) (st : App.State) : App.State :=
  match e with
  | Gesture data => App.handleGesture data st
  | MouseMove cx cy w h => App.handleMouseMove cx cy w h st
  | ToggleState => App.toggleState st
  | ToggleDebug => toggleDebug st
  | FileChange files => App.handleFileChange File createObjectURL files st
  end.

Fixpoint run (events : list Event) (st : App.State) : App.State :=
  match events with
  | [] => st
  | e :: rest => run rest (handle e st)
  end.

(** An event whose coordinates are in range: a gesture position in
    [[-1, 1]] on both axes, a mouse pointer inside a window of positive
    size. *)
Definition in_range (e : Event) : Prop :=
  match e with
  | Gesture data =>
      -1 <= App.px (App.position data) <= 1 /\
      -1 <= App.py (App.position data) <= 1
  | MouseMove cx cy w h => 0 <= cx <= w /\ 0 <= cy <= h /\ 0 < w /\ 0 < h
  | _ => True
  end.

(** The events of the mouse mode: a mouse move, the mouse-mode button. *)
Definition mouse_mode (e : Event) : Prop :=
  match e with
  | MouseMove _ _ _ _ | ToggleDebug => True
  | _ => False
  end.

End Handlers.

(** The mix target is one of the two states. *)
Definition binary (v : R) : Prop := v = 0 \/ v = 1.

(** The range of the pointer input: [[-1.2, 1.2]] across, [[-1, 1]] up. *)
Definition pointer_box (p : App.Point2) : Prop :=
  -1.2 <= App.px p <= 1.2 /\ -1 <= App.py p <= 1.

End Events.

(** ** Reading the rendered photo objects *)

Module Photos.

Import Ornaments.

(** The [key], the [item] and, for a user image, the [url] props of a
    rendered photo object; the fallback design of a fallback frame. *)
Definition child_key (c : PhotoChild) : nat :=
  match c with
  | SuspensePhotoOrnament key _ _ | FallbackPhotoFrame key _ _ => key
  end.

Definition child_item (c : PhotoChild) : OrnamentData :=
  match c with
  | SuspensePhotoOrnament _ item _ | FallbackPhotoFrame _ item _ => item
  end.

Definition child_url (c : PhotoChild) : option string :=
  match c with
  | SuspensePhotoOrnament _ _ url => Some url
  | FallbackPhotoFrame _ _ _ => None
  end.

Definition child_fallback (c : PhotoChild) : option nat :=
  match c with
  | SuspensePhotoOrnament _ _ _ => None
  | FallbackPhotoFrame _ _ fallback => Some fallback
  end.

(** Every URL of the list is a non-empty string. *)
Definition all_truthy (urls : list string) : Prop :=
  Forall (fun url => truthy url = true) urls.

End Photos.

(** ** The scene controller over a sequence of frames *)

Module Controller.

Import Three.

(** Ticks of [SceneController], each with the pointer input of the moment
    and its delta. *)
Fixpoint run (frames : list (App.Point2 * R)) (st : Experience.State)
  : Experience.State :=
  match frames with
  | [] => st
  | (inputRef, dt) :: rest => run rest (Experience.useFrame inputRef dt st)
  end.

(** The frames as the controller sees them: every delta capped at 0.1. *)
Definition capped (frames : list (App.Point2 * R)) : list (App.Point2 * R) :=
  map (fun f => (fst f, Rmin (snd f) 0.1)) frames.

(** A frame whose pointer input is in range and whose delta is not
    negative. *)
Definition nominal (f : App.Point2 * R) : Prop :=
  Events.pointer_box (fst f) /\ 0 <= snd f.

(** The region the camera moves in. *)
Definition camera_box (p : Vector3) : Prop :=
  -4.8 <= x p <= 4.8 /\ -2 <= y p <= 2 /\ 32 <= z p <= 34.4.

(** What the ticks keep: the smoothed input in the pointer range, the
    camera in its region. *)
Definition steady (st : Experience.State) : Prop :=
  Events.pointer_box (Experience.currentInput st) /\
  camera_box (Experience.camera_position st).

(** What the ticks keep of the momentum while the group is mounted: the
    remembered input is the smoothed input, and the velocity is bounded. *)
Definition bounded_momentum (st : Experience.State) : Prop :=
  Experience.lastX st = App.px (Experience.currentInput st) /\
  Rabs (Experience.velocity st) <= 6.84.

End Controller.

(** ** The blend and the interpolated position in binary64 *)

Module Double.

Local Open Scope float_scope.

Record Vector3 : Type := mkVector3 { x : float; y : float; z : float }.

(** The smaller of two numbers; a NaN operand gives NaN. *)
Definition min (a b : float) : float :=
  if PrimFloat.leb a b then a
  else if PrimFloat.ltb b a then b
  else a + b.

(** Modelled from the spec: the helper [lerp] of utils/math, whose
    source file is missing, with the smoothing law of section 4.2 as in
    [UtilsMath.lerp], evaluated in binary64. *)
Definition lerp (current target t : float) : float :=
  current + (target - current) * min t 1.

(** [v.lerpVectors(v1, v2, alpha)] of three.js, evaluated in binary64. *)
Definition lerpVectors (v1 v2 : Vector3) (alpha : float) : Vector3 :=
  mkVector3 (x v1 + (x v2 - x v1) * alpha)
            (y v1 + (y v2 - y v1) * alpha)
            (z v1 + (z v2 - z v1) * alpha).

(** The blend after a frame: [speed = 2.0 * delta], then
    [lerp(currentMixRef.current, mixFactor, speed)], as in the three frame
    callbacks of the populations. *)
Definition blend (currentMix mixFactor delta : float) : float :=
  let speed := 2.0 * delta in
  lerp currentMix mixFactor speed.

(** The position a frame of [Ornaments] or of a [PhotoFrameMesh] writes
    for an object scattered at [chaos] and formed at [target]. *)
Definition frame_position (chaos target : Vector3)
           (currentMix mixFactor delta : float) : Vector3 :=
  lerpVectors chaos target (blend currentMix mixFactor delta).

(** The position a frame of [SpiralLights] writes for a light. *)
Definition spiral_frame_position (chaos target : Vector3)
           (currentMix mixFactor delta : float) : Vector3 :=
  let t := blend currentMix mixFactor delta in
  mkVector3 (lerp (x chaos) (x target) t)
            (lerp (y chaos) (y target) t)
            (lerp (z chaos) (z target) t).

(** A number that is neither NaN nor infinite. *)
Definition finite (f : float) : Prop :=
  match Prim2SF f with
  | S754_nan | S754_infinity _ => False
  | _ => True
  end.

(** Two positions whose coordinates compare equal ([===] on each). *)
Definition same (p q : Vector3) : Prop :=
  PrimFloat.eqb (x p) (x q) = true /\
  PrimFloat.eqb (y p) (y q) = true /\
  PrimFloat.eqb (z p) (z q) = true.

(** Positions with finite coordinates, at a finite distance on each
    axis. *)
Definition finite_pair (a b : Vector3) : Prop :=
  finite (x a) /\ finite (y a) /\ finite (z a) /\
  finite (x b - x a) /\ finite (y b - y a) /\ finite (z b - z a).

End Double.

(** * Properties *)

(** ** Arithmetic of the smoothing laws *)

Section Smoothing.

Lemma Rmin_cap (a c : R) : c < a -> Rmin a c = c.
Proof.
  intros H. unfold Rmin. destruct (Rle_dec a c); lra.
Qed.

Lemma utils_lerp_convex (c m s : R) :
  0 <= s -> exists k, 0 <= k <= 1 /\ UtilsMath.lerp c m s = (1 - k) * c + k * m.
Proof.
  intros Hs. exists (Rmin s 1). split.
  - unfold Rmin. destruct (Rle_dec s 1); lra.
  - unfold UtilsMath.lerp. ring.
Qed.

Lemma utils_lerp_unit (c m s : R) :
  0 <= c <= 1 -> 0 <= m <= 1 -> 0 <= s -> 0 <= UtilsMath.lerp c m s <= 1.
Proof.
  intros Hc Hm Hs.
  destruct (utils_lerp_convex c m s Hs) as (k & Hk & ->). nra.
Qed.

Lemma utils_lerp_fixed (a s : R) : UtilsMath.lerp a a s = a.
Proof. unfold UtilsMath.lerp. ring. Qed.

Lemma lerpVectors_on_segment (a b : Three.Vector3) (t : R) :
  0 <= t <= 1 -> Scene.on_segment a b (Three.lerpVectors a b t).
Proof.
  intros Ht. exists t. cbn. repeat split; try lra; ring.
Qed.

End Smoothing.

(** ** Instance buffers *)

Section Buffers.

Import Three InstancedMesh.

Lemma setMatrixAt_length (i : nat) (m : Object3D) (buf : Buffer) :
  List.length (setMatrixAt i m buf) = List.length buf.
Proof.
  revert i. induction buf as [|a rest IH]; intros [|j]; cbn; auto.
Qed.

Lemma setMatrixAt_same (i : nat) (m : Object3D) (buf : Buffer) :
  (i < List.length buf)%nat -> nth_error (setMatrixAt i m buf) i = Some m.
Proof.
  revert i. induction buf as [|a rest IH]; intros [|j] H; cbn in *;
    try lia; auto.
  apply IH. lia.
Qed.

Lemma setMatrixAt_other (i j : nat) (m : Object3D) (buf : Buffer) :
  i <> j -> nth_error (setMatrixAt i m buf) j = nth_error buf j.
Proof.
  revert i j. induction buf as [|a rest IH]; intros [|i] [|j] H; cbn;
    try congruence; auto.
Qed.

Variable A : Type.
Variable body : nat -> A -> Object3D -> Object3D.

Lemma forEach_write_length (items : list A) (i : nat) (d : Object3D)
      (buf : Buffer) :
  List.length (snd (forEach_write body items i d buf)) = List.length buf.
Proof.
  revert i d buf. induction items as [|item rest IH]; intros; cbn; auto.
  rewrite IH. apply setMatrixAt_length.
Qed.

(** The loop leaves the instances below its start index alone. *)
Lemma forEach_write_below (items : list A) (i j : nat) (d : Object3D)
      (buf : Buffer) :
  (j < i)%nat ->
  nth_error (snd (forEach_write body items i d buf)) j = nth_error buf j.
Proof.
  revert i d buf. induction items as [|item rest IH]; intros i d buf H;
    cbn; auto.
  rewrite IH by lia. apply setMatrixAt_other. lia.
Qed.

(** Instance [i + k] ends up holding what [body] made of the [k]-th
    item. *)
Lemma forEach_write_nth (items : list A) (i k : nat) (d : Object3D)
      (buf : Buffer) (item : A) :
  nth_error items k = Some item ->
  (i + List.length items <= List.length buf)%nat ->
  exists d',
    nth_error (snd (forEach_write body items i d buf)) (i + k)
    = Some (body (i + k)%nat item d').
Proof.
  revert i k d buf.
  induction items as [|a rest IH]; intros i k d buf Hk Hlen.
  - destruct k; discriminate.
  - destruct k as [|k]; cbn in Hk, Hlen |- *.
    + injection Hk as ->. exists d.
      rewrite Nat.add_0_r, forEach_write_below by lia.
      apply setMatrixAt_same. lia.
    + replace (i + S k)%nat with (S i + k)%nat by lia.
      apply IH; auto. rewrite setMatrixAt_length. lia.
Qed.

End Buffers.

(** ** What a frame writes for each object *)

Section Rendering.

Import Three InstancedMesh.

(** Every field of the shared dummy is overwritten before its matrix is
    taken, so the matrix of an instance does not depend on what the
    previous iteration left behind. *)
Lemma ornaments_frame_item_fresh (type : Ornaments.OrnamentType) (t : R)
      (item : Ornaments.OrnamentData) (d d' : Object3D) :
  Ornaments.frame_item type t item d = Ornaments.frame_item type t item d'.
Proof.
  unfold Ornaments.frame_item.
  destruct (Ornaments.type_eqb type Ornaments.STAR && Ornaments.gtb t 0.8);
    reflexivity.
Qed.

Lemma spiral_frame_item_fresh (target chaos : nat -> R) (t time : R)
      (i : nat) (d d' : Object3D) :
  position (SpiralLights.frame_item target chaos t time i d)
  = position (SpiralLights.frame_item target chaos t time i d')
  /\ scale (SpiralLights.frame_item target chaos t time i d)
     = scale (SpiralLights.frame_item target chaos t time i d').
Proof. split; reflexivity. Qed.

Lemma ornaments_useFrame_blend (type : Ornaments.OrnamentType)
      (data : list Ornaments.OrnamentData) (mix dt : R)
      (st : Ornaments.State) (buf : Buffer) :
  Ornaments.type_eqb type Ornaments.PHOTO = false ->
  Ornaments.mesh st = Some buf ->
  Ornaments.currentMixRef (Ornaments.useFrame type data mix dt st)
  = UtilsMath.lerp (Ornaments.currentMixRef st) mix (2.0 * dt).
Proof.
  intros Hty Hmesh. unfold Ornaments.useFrame. rewrite Hmesh, Hty.
  destruct (Ornaments.frame_forEach _ _ _ _ _). reflexivity.
Qed.

Lemma ornaments_useFrame_instance (type : Ornaments.OrnamentType)
      (data : list Ornaments.OrnamentData) (mix dt : R)
      (st : Ornaments.State) (buf : Buffer) (i : nat)
      (item : Ornaments.OrnamentData) :
  Ornaments.type_eqb type Ornaments.PHOTO = false ->
  Ornaments.mesh st = Some buf ->
  (List.length data <= List.length buf)%nat ->
  nth_error data i = Some item ->
  let st' := Ornaments.useFrame type data mix dt st in
  instance (Ornaments.mesh st') i
  = Some (Ornaments.frame_item type (Ornaments.currentMixRef st') item
                               new_Object3D).
Proof.
  intros Hty Hmesh Hlen Hi. cbv zeta.
  unfold Ornaments.useFrame. rewrite Hmesh, Hty.
  destruct (Ornaments.frame_forEach _ _ _ _ _) as [d buf'] eqn:E. cbn.
  unfold Ornaments.frame_forEach in E.
  destruct (forEach_write_nth _
              (fun (_ : nat) item =>
                 Ornaments.frame_item type
                   (UtilsMath.lerp (Ornaments.currentMixRef st) mix
                                   (2.0 * dt)) item)
              data 0 i (Ornaments.dummy st) buf item Hi)
    as [d' Hd']; [cbn; lia|].
  rewrite E in Hd'. cbn in Hd'. rewrite Hd'. f_equal.
  apply ornaments_frame_item_fresh.
Qed.

Lemma spiral_useFrame_blend (target chaos : nat -> R) (mix time dt : R)
      (st : SpiralLights.State) (buf : Buffer) :
  SpiralLights.mesh st = Some buf ->
  SpiralLights.currentMixRef
    (SpiralLights.useFrame target chaos mix time dt st)
  = UtilsMath.lerp (SpiralLights.currentMixRef st) mix (2.0 * dt).
Proof.
  intros Hmesh. unfold SpiralLights.useFrame. rewrite Hmesh.
  destruct (SpiralLights.frame_loop _ _ _ _ _ _). reflexivity.
Qed.

Lemma spiral_useFrame_instance (target chaos : nat -> R) (mix time dt : R)
      (st : SpiralLights.State) (buf : Buffer) (i : nat) :
  SpiralLights.mesh st = Some buf ->
  (SpiralLights.count <= List.length buf)%nat ->
  (i < SpiralLights.count)%nat ->
  let st' := SpiralLights.useFrame target chaos mix time dt st in
  exists d,
    instance (SpiralLights.mesh st') i
    = Some (SpiralLights.frame_item target chaos
              (SpiralLights.currentMixRef st') time i d).
Proof.
  intros Hmesh Hlen Hi. cbv zeta.
  unfold SpiralLights.useFrame. rewrite Hmesh.
  destruct (SpiralLights.frame_loop _ _ _ _ _ _) as [d buf'] eqn:E. cbn.
  unfold SpiralLights.frame_loop in E.
  destruct (forEach_write_nth _
              (fun (i : nat) (_ : nat) =>
                 SpiralLights.frame_item target chaos
                   (UtilsMath.lerp (SpiralLights.currentMixRef st) mix
                                   (2.0 * dt)) time i)
              (seq 0 SpiralLights.count) 0 i (SpiralLights.dummy st) buf i)
    as [d' Hd'].
  - rewrite nth_error_nth' with (d := 0%nat) by (rewrite length_seq; lia).
    rewrite seq_nth by lia. reflexivity.
  - rewrite length_seq. cbn. lia.
  - rewrite E in Hd'. cbn in Hd'. exists d'. exact Hd'.
Qed.

Lemma photo_useFrame_blend (item : Ornaments.OrnamentData) (mix dt : R)
      (cam : Vector3) (st : Ornaments.PhotoFrameMesh.State)
      (g : Object3D) (rz : R) :
  Ornaments.PhotoFrameMesh.group st = Some g ->
  Ornaments.PhotoFrameMesh.inner_rotation_z st = Some rz ->
  Ornaments.PhotoFrameMesh.currentMixRef
    (Ornaments.PhotoFrameMesh.useFrame item mix cam dt st)
  = UtilsMath.lerp (Ornaments.PhotoFrameMesh.currentMixRef st) mix
                   (2.0 * dt).
Proof.
  intros Hg Hrz. unfold Ornaments.PhotoFrameMesh.useFrame.
  rewrite Hg, Hrz. destruct (Ornaments.gtb _ _); reflexivity.
Qed.

Lemma new_buffer_length (n : nat) : List.length (new_buffer n) = n.
Proof. apply repeat_length. Qed.

End Rendering.

(** ** The frame-delta cap *)

(** The scene controller caps the delta: a tick with a delta above 0.1
    is the tick with delta 0.1, for the pointer smoothing, the camera
    smoothing and the momentum alike. *)
Lemma scene_controller_delta_capped (inputRef : App.Point2) (dt : R)
      (st : Experience.State) :
  0.1 < dt ->
  Experience.useFrame inputRef dt st = Experience.useFrame inputRef 0.1 st.
Proof.
  intros H. unfold Experience.useFrame.
  rewrite (Rmin_cap dt 0.1 H).
  replace (Rmin 0.1 0.1) with 0.1 by (unfold Rmin; destruct (Rle_dec 0.1 0.1); lra).
  reflexivity.
Qed.

(** C1.  The specification asks that a tick with any delta above 0.1 s
    gives the smoothed quantity the value a tick with delta 0.1 s gives it.
    The populations pass [2.0 * delta] to the smoothing law without the cap:
    from blend 1 with mix target 0, a tick of 0.3 s moves the blend of an
    instanced population, of the spiral strip and of a photo frame to 0.4,
    where a tick of 0.1 s moves it to 0.8. *)
Theorem C1_population_blend_misses_delta_cap :
  forall (data : list Ornaments.OrnamentData)
         (target chaos : nat -> R) (item : Ornaments.OrnamentData)
         (time : R) (cam : Three.Vector3),
    let blend_o dt :=
      Ornaments.currentMixRef
        (Ornaments.useFrame Ornaments.BALL data 0 dt
           (Ornaments.init (List.length data) true)) in
    let blend_s dt :=
      SpiralLights.currentMixRef
        (SpiralLights.useFrame target chaos 0 time dt
           (SpiralLights.init true)) in
    let blend_p dt :=
      Ornaments.PhotoFrameMesh.currentMixRef
        (Ornaments.PhotoFrameMesh.useFrame item 0 cam dt
           (Ornaments.PhotoFrameMesh.init true)) in
    (blend_o 0.3 = 0.4 /\ blend_o 0.1 = 0.8) /\
    (blend_s 0.3 = 0.4 /\ blend_s 0.1 = 0.8) /\
    (blend_p 0.3 = 0.4 /\ blend_p 0.1 = 0.8).
Proof.
  intros data target chaos item time cam blend_o blend_s blend_p.
  assert (L3 : UtilsMath.lerp 1 0 (2.0 * 0.3) = 0.4).
  { unfold UtilsMath.lerp, Rmin. destruct (Rle_dec _ _); lra. }
  assert (L1 : UtilsMath.lerp 1 0 (2.0 * 0.1) = 0.8).
  { unfold UtilsMath.lerp, Rmin. destruct (Rle_dec _ _); lra. }
  repeat split; subst blend_o blend_s blend_p; cbv beta.
  - erewrite ornaments_useFrame_blend; [exact L3|reflexivity|reflexivity].
  - erewrite ornaments_useFrame_blend; [exact L1|reflexivity|reflexivity].
  - erewrite spiral_useFrame_blend; [exact L3|reflexivity].
  - erewrite spiral_useFrame_blend; [exact L1|reflexivity].
  - erewrite photo_useFrame_blend; [exact L3|reflexivity|reflexivity].
  - erewrite photo_useFrame_blend; [exact L1|reflexivity|reflexivity].
Qed.

(** ** The blend stays a blend *)

Section BlendInvariant.

Import Scene.

Lemma ornaments_step_unit (type : Ornaments.OrnamentType)
      (data : list Ornaments.OrnamentData) (f : Frame)
      (st : Ornaments.State) :
  nominal_frame f ->
  unit_interval (Ornaments.currentMixRef st) ->
  unit_interval
    (Ornaments.currentMixRef
       (Ornaments.useFrame type data (mixFactor f) (delta f) st)).
Proof.
  intros [Hm Hd] Hst.
  destruct (Ornaments.mesh st) as [buf|] eqn:Hmesh.
  - destruct (Ornaments.type_eqb type Ornaments.PHOTO) eqn:Hty.
    + unfold Ornaments.useFrame. rewrite Hmesh, Hty. exact Hst.
    + rewrite (ornaments_useFrame_blend type data _ _ st buf Hty Hmesh).
      apply utils_lerp_unit; auto. lra.
  - unfold Ornaments.useFrame. rewrite Hmesh. exact Hst.
Qed.

Lemma spiral_step_unit (target chaos : nat -> R) (f : Frame)
      (st : SpiralLights.State) :
  nominal_frame f ->
  unit_interval (SpiralLights.currentMixRef st) ->
  unit_interval
    (SpiralLights.currentMixRef
       (SpiralLights.useFrame target chaos
          (mixFactor f) (elapsedTime f) (delta f) st)).
Proof.
  intros [Hm Hd] Hst.
  destruct (SpiralLights.mesh st) as [buf|] eqn:Hmesh.
  - rewrite (spiral_useFrame_blend target chaos _ _ _ st buf Hmesh).
    apply utils_lerp_unit; auto. lra.
  - unfold SpiralLights.useFrame. rewrite Hmesh. exact Hst.
Qed.

Lemma photo_step_unit (item : Ornaments.OrnamentData) (f : Frame)
      (st : Ornaments.PhotoFrameMesh.State) :
  nominal_frame f ->
  unit_interval (Ornaments.PhotoFrameMesh.currentMixRef st) ->
  unit_interval
    (Ornaments.PhotoFrameMesh.currentMixRef
       (Ornaments.PhotoFrameMesh.useFrame item
          (mixFactor f) (camera f) (delta f) st)).
Proof.
  intros [Hm Hd] Hst.
  destruct (Ornaments.PhotoFrameMesh.group st) as [g|] eqn:Hg;
    [destruct (Ornaments.PhotoFrameMesh.inner_rotation_z st) as [rz|] eqn:Hr|].
  - rewrite (photo_useFrame_blend item _ _ _ st g rz Hg Hr).
    apply utils_lerp_unit; auto. lra.
  - unfold Ornaments.PhotoFrameMesh.useFrame. rewrite Hg, Hr. exact Hst.
  - unfold Ornaments.PhotoFrameMesh.useFrame. rewrite Hg. exact Hst.
Qed.

Lemma nominal_prefix (frames : list Frame) (n : nat) :
  Forall nominal_frame frames -> Forall nominal_frame (firstn n frames).
Proof.
  intros H. revert n. induction H as [|f rest Hf _ IH]; intros [|n]; cbn;
    constructor; auto.
Qed.

End BlendInvariant.

(** C3.  Start from a blend in [[0, 1]] (the initial 1 is one) and feed
    any sequence of frames whose mix targets lie in [[0, 1]] and whose
    deltas are positive, however large: after every tick, that is after
    every prefix of the sequence, the blend of an instanced population, of
    the spiral strip and of a photo frame lies in [[0, 1]]. *)
Theorem C3_blend_stays_in_unit_interval :
  forall frames : list Scene.Frame,
    Forall Scene.nominal_frame frames ->
    forall n : nat,
      (forall type data st,
          Scene.unit_interval (Ornaments.currentMixRef st) ->
          Scene.unit_interval
            (Ornaments.currentMixRef
               (Scene.ornaments_run type data (firstn n frames) st))) /\
      (forall target chaos st,
          Scene.unit_interval (SpiralLights.currentMixRef st) ->
          Scene.unit_interval
            (SpiralLights.currentMixRef
               (Scene.spiral_run target chaos (firstn n frames) st))) /\
      (forall item st,
          Scene.unit_interval (Ornaments.PhotoFrameMesh.currentMixRef st) ->
          Scene.unit_interval
            (Ornaments.PhotoFrameMesh.currentMixRef
               (Scene.photo_run item (firstn n frames) st))).
Proof.
  intros frames Hall n.
  pose proof (nominal_prefix frames n Hall) as Hpre.
  induction Hpre as [|f rest Hf _ IH].
  - split; [|split]; intros; cbn; assumption.
  - destruct IH as (IHo & IHs & IHp). split; [|split]; intros; cbn.
    + apply IHo, ornaments_step_unit; assumption.
    + apply IHs, spiral_step_unit; assumption.
    + apply IHp, photo_step_unit; assumption.
Qed.

(** A run of three frames from the initial states: a flip of the mix
    target with a stalled frame of two seconds in the middle. *)
Lemma C3_witness :
  let frames :=
    [Scene.mkFrame 0 0 0.016 (Three.mkVector3 0 0 32);
     Scene.mkFrame 0 2 2 (Three.mkVector3 0 0 32);
     Scene.mkFrame 1 2.1 0.1 (Three.mkVector3 0 0 32)] in
  Scene.unit_interval
    (Ornaments.currentMixRef
       (Scene.ornaments_run Ornaments.STAR [] (firstn 2 frames)
          (Ornaments.init 0 true))) /\
  Scene.unit_interval
    (SpiralLights.currentMixRef
       (Scene.spiral_run (fun _ => 0) (fun _ => 0) (firstn 2 frames)
          (SpiralLights.init true))).
Proof.
  intros frames.
  assert (Hall : Forall Scene.nominal_frame frames).
  { repeat constructor; cbn; lra. }
  destruct (C3_blend_stays_in_unit_interval frames Hall 2) as (Ho & Hs & _).
  split.
  - apply Ho. cbn. unfold Scene.unit_interval. lra.
  - apply Hs. cbn. unfold Scene.unit_interval. lra.
Defined.

(** ** Interpolated positions *)

Section Positions.

Import Three Scene.

Lemma utils_lerp_linear (a b t : R) :
  t <= 1 -> UtilsMath.lerp a b t = a + (b - a) * t.
Proof.
  intros H. unfold UtilsMath.lerp, Rmin. destruct (Rle_dec t 1); lra.
Qed.

Lemma ornaments_frame_item_position (type : Ornaments.OrnamentType) (t : R)
      (item : Ornaments.OrnamentData) (d : Object3D) :
  position (Ornaments.frame_item type t item d)
  = lerpVectors (Ornaments.chaosPos item) (Ornaments.targetPos item) t.
Proof.
  unfold Ornaments.frame_item.
  destruct (Ornaments.type_eqb type Ornaments.STAR && Ornaments.gtb t 0.8);
    reflexivity.
Qed.

Lemma ornaments_frame_item_scale (type : Ornaments.OrnamentType) (t : R)
      (item : Ornaments.OrnamentData) (d : Object3D) :
  scale (Ornaments.frame_item type t item d)
  = lerpVectors (Ornaments.chaosScale item) (Ornaments.targetScale item) t.
Proof. reflexivity. Qed.

Lemma spiral_frame_item_position (target chaos : nat -> R) (t time : R)
      (i : nat) (d : Object3D) :
  t <= 1 ->
  position (SpiralLights.frame_item target chaos t time i d)
  = lerpVectors (SpiralLights.chaosAt chaos i)
                (SpiralLights.targetAt target i) t.
Proof.
  intros H. unfold SpiralLights.frame_item, lerpVectors. cbn.
  rewrite !utils_lerp_linear by exact H. reflexivity.
Qed.

Lemma lerpVectors_point_at (a b : Vector3) (t : R) :
  point_at a b t (lerpVectors a b t).
Proof.
  unfold point_at, lerpVectors. cbn. repeat split; ring.
Qed.

Lemma photo_useFrame_group (item : Ornaments.OrnamentData) (mix dt : R)
      (cam : Vector3) (st : Ornaments.PhotoFrameMesh.State)
      (g : Object3D) (rz : R) :
  Ornaments.PhotoFrameMesh.group st = Some g ->
  Ornaments.PhotoFrameMesh.inner_rotation_z st = Some rz ->
  let st' := Ornaments.PhotoFrameMesh.useFrame item mix cam dt st in
  let t := Ornaments.PhotoFrameMesh.currentMixRef st' in
  exists g',
    Ornaments.PhotoFrameMesh.group st' = Some g' /\
    position g'
    = lerpVectors (Ornaments.chaosPos item) (Ornaments.targetPos item) t /\
    scale g'
    = lerpVectors (Ornaments.chaosScale item) (Ornaments.targetScale item) t.
Proof.
  intros Hg Hrz. cbv zeta. unfold Ornaments.PhotoFrameMesh.useFrame.
  rewrite Hg, Hrz. destruct (Ornaments.gtb _ _); cbn;
    eexists; split; try reflexivity; split; reflexivity.
Qed.

End Positions.

(** *** The end points in binary64 *)

Section DoubleEndPoints.

Local Open Scope float_scope.

Lemma SFeqb_finite_refl (s : bool) (m : positive) (e : Z) :
  SFeqb (S754_finite s m e) (S754_finite s m e) = true.
Proof.
  unfold SFeqb, SFcompare.
  destruct s; rewrite Z.compare_refl, Pos.compare_cont_refl; reflexivity.
Qed.

(** Adding a zero product to a finite number gives the number back. *)
Lemma double_zero_end (a d : float) :
  Double.finite a -> Double.finite d ->
  PrimFloat.eqb (a + d * 0) a = true.
Proof.
  unfold Double.finite. intros Ha Hd.
  rewrite eqb_spec, add_spec, mul_spec.
  change (Prim2SF 0) with (S754_zero false).
  destruct (Prim2SF a) as [sa|sa| |sa ma ea]; try contradiction;
    destruct (Prim2SF d) as [sd|sd| |sd md ed]; try contradiction.
  - destruct sa, sd; reflexivity.
  - destruct sa, sd; reflexivity.
  - apply SFeqb_finite_refl.
  - apply SFeqb_finite_refl.
Qed.

Lemma double_lerpVectors_0 (chaos target : Double.Vector3) :
  Double.finite_pair chaos target ->
  Double.same (Double.lerpVectors chaos target 0) chaos.
Proof.
  intros (Hx & Hy & Hz & Dx & Dy & Dz).
  unfold Double.same, Double.lerpVectors. cbn.
  repeat split; apply double_zero_end; assumption.
Qed.

Lemma double_lerp_0 (chaos target : Double.Vector3) :
  Double.finite_pair chaos target ->
  Double.same
    (Double.mkVector3 (Double.lerp (Double.x chaos) (Double.x target) 0)
                      (Double.lerp (Double.y chaos) (Double.y target) 0)
                      (Double.lerp (Double.z chaos) (Double.z target) 0))
    chaos.
Proof.
  intros (Hx & Hy & Hz & Dx & Dy & Dz).
  unfold Double.same, Double.lerp. cbn.
  change (Double.min 0 1) with 0.
  repeat split; apply double_zero_end; assumption.
Qed.

Lemma double_finite_pair_example :
  Double.finite_pair (Double.mkVector3 25 0 0) (Double.mkVector3 0.1 0 0).
Proof.
  unfold Double.finite_pair, Double.finite. vm_compute. tauto.
Qed.

End DoubleEndPoints.

(** C2, as stated, fails at blend 1 in the arithmetic of the program.  A
    frame that finds the blend at 1 with mix target 1 leaves it at exactly
    1; for an object scattered at x = 25 and formed at x = 0.1 it writes
    [25 + (0.1 - 25) * 1], which in binary64 is 0.10000000000000142 and not
    the target's 0.1. *)
Lemma C2_blend_one_counterexample :
  let chaos := Double.mkVector3 25 0 0 in
  let target := Double.mkVector3 0.1 0 0 in
  let p := Double.frame_position chaos target 1 1 0.016 in
  Double.blend 1 1 0.016 = 1%float /\
  Double.x p = 0.10000000000000142%float /\
  PrimFloat.eqb (Double.x p) (Double.x target) = false /\
  Double.x p <> Double.x target.
Proof.
  intros chaos target p.
  assert (Hb : Double.blend 1 1 0.016 = 1%float) by (vm_compute; reflexivity).
  assert (Hp : Double.x p = 0.10000000000000142%float)
    by (vm_compute; reflexivity).
  assert (He : PrimFloat.eqb (Double.x p) (Double.x target) = false)
    by (vm_compute; reflexivity).
  repeat split; try assumption.
  intros H. rewrite H in He. vm_compute in He. discriminate.
Qed.

(** C2, amended.  Take any frame after which the blend [t] of a population
    lies in [[0, 1]].  The position that frame writes for an object -
    instance [i] of an instanced population, light [i] of the spiral strip,
    the group of a photo frame - is [chaos + (target - chaos) * t] on each
    coordinate: in exact arithmetic it is the point that divides the
    segment from the chaos position to the target position in the ratio
    [t], and so lies on that segment.  In binary64, at blend 0 the
    interpolation of finite positions compares equal to the chaos position
    on every coordinate; at blend 1 it is [chaos + (target - chaos)],
    which can miss the target by a rounding error. *)
Theorem C2_position_interpolated :
  (forall t : R,
      0 <= t <= 1 ->
      (forall type data mix dt st buf i item,
          Ornaments.type_eqb type Ornaments.PHOTO = false ->
          Ornaments.mesh st = Some buf ->
          (List.length data <= List.length buf)%nat ->
          nth_error data i = Some item ->
          let st' := Ornaments.useFrame type data mix dt st in
          Ornaments.currentMixRef st' = t ->
          exists m,
            InstancedMesh.instance (Ornaments.mesh st') i = Some m /\
            Scene.on_segment (Ornaments.chaosPos item)
              (Ornaments.targetPos item) (Three.position m) /\
            Scene.point_at (Ornaments.chaosPos item)
              (Ornaments.targetPos item) t (Three.position m)) /\
      (forall target chaos mix time dt st buf i,
          SpiralLights.mesh st = Some buf ->
          (SpiralLights.count <= List.length buf)%nat ->
          (i < SpiralLights.count)%nat ->
          let st' := SpiralLights.useFrame target chaos mix time dt st in
          SpiralLights.currentMixRef st' = t ->
          exists m,
            InstancedMesh.instance (SpiralLights.mesh st') i = Some m /\
            Scene.on_segment (SpiralLights.chaosAt chaos i)
              (SpiralLights.targetAt target i) (Three.position m) /\
            Scene.point_at (SpiralLights.chaosAt chaos i)
              (SpiralLights.targetAt target i) t (Three.position m)) /\
      (forall item mix cam dt st g rz,
          Ornaments.PhotoFrameMesh.group st = Some g ->
          Ornaments.PhotoFrameMesh.inner_rotation_z st = Some rz ->
          let st' := Ornaments.PhotoFrameMesh.useFrame item mix cam dt st in
          Ornaments.PhotoFrameMesh.currentMixRef st' = t ->
          exists g',
            Ornaments.PhotoFrameMesh.group st' = Some g' /\
            Scene.on_segment (Ornaments.chaosPos item)
              (Ornaments.targetPos item) (Three.position g') /\
            Scene.point_at (Ornaments.chaosPos item)
              (Ornaments.targetPos item) t (Three.position g'))) /\
  (forall chaos target : Double.Vector3,
      Double.finite_pair chaos target ->
      Double.same (Double.lerpVectors chaos target 0) chaos /\
      Double.same
        (Double.mkVector3
           (Double.lerp (Double.x chaos) (Double.x target) 0)
           (Double.lerp (Double.y chaos) (Double.y target) 0)
           (Double.lerp (Double.z chaos) (Double.z target) 0))
        chaos) /\
  (exists chaos target : Double.Vector3,
      Double.finite_pair chaos target /\
      PrimFloat.eqb (Double.x (Double.lerpVectors chaos target 1))
                    (Double.x target) = false /\
      PrimFloat.eqb (Double.lerp (Double.x chaos) (Double.x target) 1)
                    (Double.x target) = false).
Proof.
  split; [|split].
  - intros t Ht. split; [|split].
    + intros type data mix dt st buf i item Hty Hmesh Hlen Hi st' Hst'.
      pose proof (ornaments_useFrame_instance type data mix dt st buf i item
                    Hty Hmesh Hlen Hi) as Hinst.
      cbv zeta in Hinst. fold st' in Hinst. rewrite Hst' in Hinst.
      eexists. split; [exact Hinst|].
      rewrite ornaments_frame_item_position. split.
      * apply lerpVectors_on_segment, Ht.
      * apply lerpVectors_point_at.
    + intros target chaos mix time dt st buf i Hmesh Hlen Hi st' Hst'.
      destruct (spiral_useFrame_instance target chaos mix time dt st buf i
                  Hmesh Hlen Hi) as [d Hinst].
      fold st' in Hinst. rewrite Hst' in Hinst.
      eexists. split; [exact Hinst|].
      rewrite spiral_frame_item_position by lra. split.
      * apply lerpVectors_on_segment, Ht.
      * apply lerpVectors_point_at.
    + intros item mix cam dt st g rz Hg Hrz st' Hst'.
      destruct (photo_useFrame_group item mix dt cam st g rz Hg Hrz)
        as (g' & Hg' & Hpos & _).
      fold st' in Hg', Hpos. rewrite Hst' in Hpos.
      exists g'. split; [exact Hg'|].
      rewrite Hpos. split.
      * apply lerpVectors_on_segment, Ht.
      * apply lerpVectors_point_at.
  - intros chaos target Hf. split.
    + apply double_lerpVectors_0, Hf.
    + apply double_lerp_0, Hf.
  - exists (Double.mkVector3 25 0 0), (Double.mkVector3 0.1 0 0).
    split; [apply double_finite_pair_example|].
    split; vm_compute; reflexivity.
Qed.

(** One ball, scattered at (10, 0, 0) and formed at (0, 2, 0): after a
    frame of a quarter second toward mix target 0 its blend is 1/2 and
    the instance sits half way between the two points. *)
Lemma C2_witness :
  let item :=
    Ornaments.mkOrnamentData
      (Three.mkVector3 10 0 0) (Three.mkVector3 0 2 0) (Three.mkEuler 0 0 0)
      None (Three.mkVector3 1 1 1) (Three.mkVector3 1 1 1) 0 in
  let st' :=
    Ornaments.useFrame Ornaments.BALL [item] 0 0.25 (Ornaments.init 1 true) in
  (exists m,
      InstancedMesh.instance (Ornaments.mesh st') 0 = Some m /\
      Scene.on_segment (Three.mkVector3 10 0 0) (Three.mkVector3 0 2 0)
        (Three.position m) /\
      Scene.point_at (Three.mkVector3 10 0 0) (Three.mkVector3 0 2 0)
        (1 / 2) (Three.position m)) /\
  Double.same
    (Double.lerpVectors (Double.mkVector3 25 0 0) (Double.mkVector3 0.1 0 0)
                        0)
    (Double.mkVector3 25 0 0).
Proof.
  intros item st'.
  assert (Ht : 0 <= 1 / 2 <= 1) by lra.
  destruct C2_position_interpolated as (Hreal & Hzero & _).
  split.
  - destruct (Hreal (1 / 2) Ht) as (Ho & _ & _).
    apply (Ho Ornaments.BALL [item] 0 0.25 (Ornaments.init 1 true)
              (InstancedMesh.new_buffer 1) 0%nat item);
      try reflexivity.
    erewrite ornaments_useFrame_blend; [|reflexivity|reflexivity].
    change (Ornaments.currentMixRef (Ornaments.init 1 true)) with 1.
    unfold UtilsMath.lerp, Rmin. destruct (Rle_dec _ _); lra.
  - apply Hzero.
    unfold Double.finite_pair, Double.finite. vm_compute. tauto.
Defined.

(** ** Scales *)

Section Scales.

Import Three.

Lemma spiral_frame_item_scale (target chaos : nat -> R) (t time : R)
      (i : nat) (d : Object3D) :
  scale (SpiralLights.frame_item target chaos t time i d)
  = setScalar (SpiralLights.pulse time i).
Proof. reflexivity. Qed.

Lemma pulse_range (time : R) (i : nat) :
  0.1 <= SpiralLights.pulse time i <= 0.2.
Proof.
  unfold SpiralLights.pulse.
  pose proof (SIN_bound (time * 3 + INR i * 0.1)) as [Hlo Hhi]. lra.
Qed.

Lemma pulse_at_rest : SpiralLights.pulse 0 0 = 0.15.
Proof.
  unfold SpiralLights.pulse. cbn [INR].
  replace (0 * 3 + 0 * 0.1) with 0 by ring. rewrite sin_0. lra.
Qed.

Lemma pulse_at_peak : SpiralLights.pulse (PI / 6) 0 = 0.2.
Proof.
  unfold SpiralLights.pulse. cbn [INR].
  replace (PI / 6 * 3 + 0 * 0.1) with (PI / 2) by field.
  rewrite sin_PI2. lra.
Qed.

(** The scale a frame of the spiral strip writes for light [i]. *)
Lemma spiral_useFrame_scale (target chaos : nat -> R) (mix time dt : R)
      (st : SpiralLights.State) (buf : InstancedMesh.Buffer) (i : nat) :
  SpiralLights.mesh st = Some buf ->
  (SpiralLights.count <= List.length buf)%nat ->
  (i < SpiralLights.count)%nat ->
  option_map scale
    (InstancedMesh.instance
       (SpiralLights.mesh
          (SpiralLights.useFrame target chaos mix time dt st)) i)
  = Some (setScalar (SpiralLights.pulse time i)).
Proof.
  intros Hmesh Hlen Hi.
  destruct (spiral_useFrame_instance target chaos mix time dt st buf i
              Hmesh Hlen Hi) as [d Hinst].
  rewrite Hinst. reflexivity.
Qed.

End Scales.

(** C4, as stated, fails for the spiral strip.  Two frames of the strip
    at the same blend 1, one at clock time 0 and one at clock time pi/6,
    give light 0 the scales 0.15 and 0.2: no pair of fixed chaos and
    target scales interpolates to both at one blend. *)
Lemma C4_spiral_scale_counterexample :
  let still := fun _ : nat => 0 in
  let s1 :=
    SpiralLights.useFrame still still 1 0 0.1 (SpiralLights.init true) in
  let s2 :=
    SpiralLights.useFrame still still 1 (PI / 6) 0.1 (SpiralLights.init true) in
  let scale_of s :=
    option_map Three.scale
      (InstancedMesh.instance (SpiralLights.mesh s) 0) in
  SpiralLights.currentMixRef s1 = 1 /\
  SpiralLights.currentMixRef s2 = 1 /\
  scale_of s1 = Some (Three.setScalar 0.15) /\
  scale_of s2 = Some (Three.setScalar 0.2) /\
  ~ (exists chaosScale targetScale : Three.Vector3,
        scale_of s1
        = Some (Three.lerpVectors chaosScale targetScale
                  (SpiralLights.currentMixRef s1)) /\
        scale_of s2
        = Some (Three.lerpVectors chaosScale targetScale
                  (SpiralLights.currentMixRef s2))).
Proof.
  intros still s1 s2 scale_of.
  assert (B1 : SpiralLights.currentMixRef s1 = 1).
  { unfold s1. erewrite spiral_useFrame_blend by reflexivity.
    apply utils_lerp_fixed. }
  assert (B2 : SpiralLights.currentMixRef s2 = 1).
  { unfold s2. erewrite spiral_useFrame_blend by reflexivity.
    apply utils_lerp_fixed. }
  assert (S1 : scale_of s1 = Some (Three.setScalar 0.15)).
  { unfold scale_of, s1.
    erewrite spiral_useFrame_scale;
      [rewrite pulse_at_rest; reflexivity | reflexivity | | ].
    - cbn [SpiralLights.init]. rewrite new_buffer_length. lia.
    - unfold SpiralLights.count. lia. }
  assert (S2 : scale_of s2 = Some (Three.setScalar 0.2)).
  { unfold scale_of, s2.
    erewrite spiral_useFrame_scale;
      [rewrite pulse_at_peak; reflexivity | reflexivity | | ].
    - cbn [SpiralLights.init]. rewrite new_buffer_length. lia.
    - unfold SpiralLights.count. lia. }
  repeat split; auto.
  intros (cs & ts & H1 & H2).
  rewrite S1, B1 in H1. rewrite S2, B2 in H2.
  injection H1 as Hx _ _. injection H2 as Hx' _ _. lra.
Qed.

(** C4, amended.  After a frame, the scale of instance [i] of an instanced
    population and the scale of the group of a photo frame are the
    componentwise interpolation of the object's chaos and target scales by
    the blend of that frame.  The scale of light [i] of the spiral strip is
    the uniform pulse [sin(3 time + 0.1 i) * 0.05 + 0.15], a number between
    0.1 and 0.2 that does not depend on the blend. *)
Theorem C4_scale_of_each_population :
  (forall type data mix dt st buf i item,
      Ornaments.type_eqb type Ornaments.PHOTO = false ->
      Ornaments.mesh st = Some buf ->
      (List.length data <= List.length buf)%nat ->
      nth_error data i = Some item ->
      let st' := Ornaments.useFrame type data mix dt st in
      option_map Three.scale (InstancedMesh.instance (Ornaments.mesh st') i)
      = Some (Three.lerpVectors (Ornaments.chaosScale item)
                (Ornaments.targetScale item) (Ornaments.currentMixRef st'))) /\
  (forall item mix cam dt st g rz,
      Ornaments.PhotoFrameMesh.group st = Some g ->
      Ornaments.PhotoFrameMesh.inner_rotation_z st = Some rz ->
      let st' := Ornaments.PhotoFrameMesh.useFrame item mix cam dt st in
      option_map Three.scale (Ornaments.PhotoFrameMesh.group st')
      = Some (Three.lerpVectors (Ornaments.chaosScale item)
                (Ornaments.targetScale item)
                (Ornaments.PhotoFrameMesh.currentMixRef st'))) /\
  (forall target chaos mix time dt st buf i,
      SpiralLights.mesh st = Some buf ->
      (SpiralLights.count <= List.length buf)%nat ->
      (i < SpiralLights.count)%nat ->
      let st' := SpiralLights.useFrame target chaos mix time dt st in
      option_map Three.scale (InstancedMesh.instance (SpiralLights.mesh st') i)
      = Some (Three.setScalar (SpiralLights.pulse time i)) /\
      0.1 <= SpiralLights.pulse time i <= 0.2).
Proof.
  split; [|split].
  - intros type data mix dt st buf i item Hty Hmesh Hlen Hi st'.
    pose proof (ornaments_useFrame_instance type data mix dt st buf i item
                  Hty Hmesh Hlen Hi) as Hinst.
    cbv zeta in Hinst. fold st' in Hinst. rewrite Hinst. reflexivity.
  - intros item mix cam dt st g rz Hg Hrz st'.
    destruct (photo_useFrame_group item mix dt cam st g rz Hg Hrz)
      as (g' & Hg' & _ & Hsc).
    fold st' in Hg', Hsc. rewrite Hg'. cbn. rewrite Hsc. reflexivity.
  - intros target chaos mix time dt st buf i Hmesh Hlen Hi st'. split.
    + apply (spiral_useFrame_scale target chaos mix time dt st buf i);
        assumption.
    + apply pulse_range.
Qed.

(** A candy cane that is twice as large when scattered: after a frame of
    a quarter second from blend 1 toward mix target 0, its instance has
    the scale interpolated at the new blend. *)
Lemma C4_witness :
  let item :=
    Ornaments.mkOrnamentData
      (Three.mkVector3 10 0 0) (Three.mkVector3 0 2 0) (Three.mkEuler 0 0 0)
      None (Three.mkVector3 0.2 1.5 0.2) (Three.mkVector3 0.4 3 0.4) 0 in
  let st' :=
    Ornaments.useFrame Ornaments.CANDY [item] 0 0.25 (Ornaments.init 1 true) in
  option_map Three.scale (InstancedMesh.instance (Ornaments.mesh st') 0)
  = Some (Three.lerpVectors (Three.mkVector3 0.4 3 0.4)
            (Three.mkVector3 0.2 1.5 0.2) (Ornaments.currentMixRef st')).
Proof.
  intros item st'.
  destruct C4_scale_of_each_population as (Ho & _ & _).
  apply (Ho Ornaments.CANDY [item] 0 0.25 (Ornaments.init 1 true)
            (InstancedMesh.new_buffer 1) 0%nat item);
    reflexivity.
Defined.

(** ** Orientation of the stars *)

(** C5.  After a frame of a STAR population with blend [t], instance [i]
    is oriented as follows.  When [t > 0.8]: the object, at its own current
    position, looks at the point of the vertical axis at its own height and
    is then turned by pi/2 about its local x axis; the direction it looks
    along is horizontal and radial, [(-x, 0, -z)] for an object at
    [(x, y, z)].  When [t <= 0.8]: the object's baseline rotation. *)
Theorem C5_star_orientation :
  forall data mix dt st buf i item,
    Ornaments.mesh st = Some buf ->
    (List.length data <= List.length buf)%nat ->
    nth_error data i = Some item ->
    let st' := Ornaments.useFrame Ornaments.STAR data mix dt st in
    let t := Ornaments.currentMixRef st' in
    exists m,
      InstancedMesh.instance (Ornaments.mesh st') i = Some m /\
      Three.position m
      = Three.lerpVectors (Ornaments.chaosPos item) (Ornaments.targetPos item) t /\
      (0.8 < t ->
       let p := Three.position m in
       let axis_point := Three.mkVector3 0 (Three.y p) 0 in
       Three.orientation m
       = Three.RotateX (Three.LookAt p axis_point) (PI / 2) /\
       Three.lookDirection p axis_point
       = Three.mkVector3 (- Three.x p) 0 (- Three.z p)) /\
      (t <= 0.8 ->
       Three.orientation m = Three.FromEuler (Ornaments.rotation item)).
Proof.
  intros data mix dt st buf i item Hmesh Hlen Hi st' t.
  pose proof (ornaments_useFrame_instance Ornaments.STAR data mix dt st buf i
                item eq_refl Hmesh Hlen Hi) as Hinst.
  cbv zeta in Hinst. fold st' in Hinst. fold t in Hinst.
  eexists. split; [exact Hinst|]. split; [|split].
  - apply ornaments_frame_item_position.
  - intros Hgt. unfold Ornaments.frame_item, Ornaments.gtb. cbn.
    destruct (Rlt_dec 0.8 t) as [_|Hn]; [|contradiction].
    cbn. split; [reflexivity|].
    unfold Three.lookDirection. cbn. f_equal; ring.
  - intros Hle. unfold Ornaments.frame_item, Ornaments.gtb. cbn.
    destruct (Rlt_dec 0.8 t) as [Hlt|_]; [lra|]. reflexivity.
Qed.

(** A star scattered at (10, 4, 0) and formed at (3, 6, 4), kept at blend
    1: it sits at its target and looks at (0, 6, 0). *)
Lemma C5_witness :
  let item :=
    Ornaments.mkOrnamentData
      (Three.mkVector3 10 4 0) (Three.mkVector3 3 6 4) (Three.mkEuler 1 2 0)
      None (Three.mkVector3 1 1 1) (Three.mkVector3 1 1 1) 0 in
  let st' :=
    Ornaments.useFrame Ornaments.STAR [item] 1 0.016 (Ornaments.init 1 true) in
  exists m,
    InstancedMesh.instance (Ornaments.mesh st') 0 = Some m /\
    Three.orientation m
    = Three.RotateX
        (Three.LookAt (Three.position m)
           (Three.mkVector3 0 (Three.y (Three.position m)) 0)) (PI / 2).
Proof.
  intros item st'.
  destruct (C5_star_orientation [item] 1 0.016 (Ornaments.init 1 true)
              (InstancedMesh.new_buffer 1) 0%nat item eq_refl (le_n 1) eq_refl)
    as (m & Hm & _ & Hout & _).
  exists m. split; [exact Hm|].
  apply Hout.
  erewrite ornaments_useFrame_blend; [|reflexivity|reflexivity].
  change (Ornaments.currentMixRef (Ornaments.init 1 true)) with 1.
  rewrite utils_lerp_fixed. lra.
Defined.

(** ** Size of the photo population *)

Section PhotoCount.

Import Random.

Variable generateFoliageData : nat -> R -> R -> Rand (nat -> R).
Variable randomVector3 : R -> Rand Three.Vector3.

Lemma data_loop_length (type : Ornaments.OrnamentType)
      (colors : option (list string)) (scale : R) (target : nat -> R)
      (n i : nat) (s : nat -> R) (c : nat) :
  List.length
    (fst (Ornaments.data_loop randomVector3 type colors scale target n i s c))
  = n.
Proof.
  revert i c. induction n as [|n IH]; intros i c; [reflexivity|].
  cbn [Ornaments.data_loop]. unfold bind at 1.
  destruct (Ornaments.data_item _ _ _ _ _ _ s c) as [item c'].
  unfold bind at 1. specialize (IH (S i) c').
  destruct (Ornaments.data_loop _ _ _ _ _ _ _ s c') as [rest c''].
  cbn in *. f_equal. exact IH.
Qed.

Lemma data_length (type : Ornaments.OrnamentType) (count : nat)
      (colors : option (list string)) (scale : option R)
      (s : nat -> R) (c : nat) :
  List.length
    (fst (Ornaments.data generateFoliageData randomVector3
            type count colors scale s c))
  = count.
Proof.
  unfold Ornaments.data, bind.
  destruct (generateFoliageData count 18 7 s c) as [target c'].
  apply data_loop_length.
Qed.

Lemma photo_children_length (userImages : list string)
      (items : list Ornaments.OrnamentData) (i : nat) :
  List.length (Ornaments.photo_children userImages items i)
  = List.length items.
Proof.
  revert i. induction items as [|item rest IH]; intros i; cbn; auto.
Qed.

Lemma photo_population_length (userImages : option (list string))
      (s : nat -> R) (c : nat) :
  List.length
    (fst (Scene.photo_population generateFoliageData randomVector3
            userImages s c))
  = Experience.photoCount userImages.
Proof.
  unfold Scene.photo_population, bind.
  pose proof (data_length Ornaments.PHOTO (Experience.photoCount userImages)
                None None s c) as H.
  destruct (Ornaments.data _ _ _ _ _ _ s c) as [data c'].
  cbn in *. rewrite photo_children_length. exact H.
Qed.

End PhotoCount.

(** C6.  The photo frames the scene mounts are as many as the images
    supplied when there are some, and 10 when there are none; five images
    give five frames.  The upload handler keeps at most the first 30 files
    of a non-empty selection and leaves the images as they are
    otherwise. *)
Theorem C6_photo_population_size :
  (forall generateFoliageData randomVector3 (imgs : list string) s c,
      List.length
        (fst (Scene.photo_population generateFoliageData randomVector3
                (Some imgs) s c))
      = match imgs with
        | [] => 10%nat
        | _ :: _ => List.length imgs
        end) /\
  (forall generateFoliageData randomVector3 s c,
      List.length
        (fst (Scene.photo_population generateFoliageData randomVector3
                None s c)) = 10%nat) /\
  (forall generateFoliageData randomVector3 a b c d e s n,
      List.length
        (fst (Scene.photo_population generateFoliageData randomVector3
                (Some [a; b; c; d; e]) s n)) = 5%nat) /\
  (forall (File : Type) (createObjectURL : File -> string)
          (files : option (list File)) (st : App.State),
      List.length
        (App.userImages (App.handleFileChange File createObjectURL files st))
      = match files with
        | Some ((_ :: _) as fs) => Nat.min 30 (List.length fs)
        | _ => List.length (App.userImages st)
        end).
Proof.
  split; [|split; [|split]].
  - intros gen rv imgs s c. rewrite photo_population_length.
    destruct imgs; reflexivity.
  - intros gen rv s c. rewrite photo_population_length. reflexivity.
  - intros gen rv a b c d e s n. rewrite photo_population_length.
    reflexivity.
  - intros File url [[|f fs]|] st; try reflexivity.
    unfold App.handleFileChange.
    change (0 <? List.length (f :: fs))%nat with true. cbv iota.
    cbn [App.userImages]. rewrite length_map, length_firstn. reflexivity.
Qed.

(** ** Gestures *)

(** C7.  A detected sample sets the mix target to 0 when the hand is open
    and to 1 when it is closed, and sets the pointer input to
    [(position.x * 1.2, position.y)].  A sample that is not detected leaves
    the pointer input (and the mix target) as it was. *)
Theorem C7_gesture_mapping :
  forall (open : bool) (pos : App.Point2) (st : App.State),
    let detected := App.handleGesture (App.mkHandGesture true open pos) st in
    let lost := App.handleGesture (App.mkHandGesture false open pos) st in
    App.targetMix detected = (if open then 0 else 1) /\
    App.inputRef detected = App.mkPoint2 (App.px pos * 1.2) (App.py pos) /\
    App.inputRef lost = App.inputRef st /\
    App.targetMix lost = App.targetMix st.
Proof.
  intros open pos st. cbn. repeat split.
  unfold App.setTargetMix_if_changed.
  destruct (Req_dec_T _ _) as [E|_]; [exact E|reflexivity].
Qed.

(** ** Rotation momentum *)

Section Momentum.

Import Experience.

Lemma useFrame_momentum (inp : App.Point2) (dt : R) (st : State) (ry : R) :
  group_rotation_y st = Some ry ->
  let st' := useFrame inp dt st in
  velocity st'
  = (velocity st + (App.px (currentInput st') - lastX st) * 0.5) * 0.95
  /\ lastX st' = App.px (currentInput st')
  /\ group_rotation_y st' = Some (ry + (0.002 + velocity st')).
Proof.
  intros Hg. cbv zeta. unfold useFrame. rewrite Hg. cbn.
  repeat split.
Qed.

(** The smoothed horizontal input has caught up with the pointer and
    with the value remembered from the previous frame. *)
Lemma useFrame_settled (inp : App.Point2) (dt : R) (st : State) (ry : R) :
  group_rotation_y st = Some ry ->
  settled inp st ->
  let st' := useFrame inp dt st in
  settled inp st'
  /\ velocity st' = velocity st * 0.95
  /\ exists ry', group_rotation_y st' = Some ry'.
Proof.
  intros Hg [Hx Hl]. cbv zeta. unfold settled, useFrame.
  rewrite Hg. cbn. rewrite Hl, Hx. unfold Three.MathUtils_lerp.
  repeat split; try ring. eexists. reflexivity.
Qed.

Lemma run_settled (inp : App.Point2) (dts : list R) (st : State) (ry : R) :
  group_rotation_y st = Some ry ->
  settled inp st ->
  velocity (run inp dts st) = velocity st * 0.95 ^ List.length dts.
Proof.
  revert st ry. induction dts as [|dt rest IH]; intros st ry Hg Hs.
  - cbn. ring.
  - destruct (useFrame_settled inp dt st ry Hg Hs) as (Hs' & Hv & ry' & Hg').
    cbn [run List.length pow]. rewrite (IH _ ry' Hg' Hs'), Hv. ring.
Qed.

Lemma decay_le_1 (n : nat) : 0 <= 0.95 ^ n <= 1.
Proof.
  induction n as [|n IH]; cbn [pow]; lra.
Qed.

End Momentum.

(** C8.  With the rotating group mounted, a tick adds 0.5 times the
    change of the smoothed horizontal input since the previous frame to the
    velocity, multiplies the sum by 0.95, and adds 0.002 plus the new
    velocity to the group's angle.  Once the smoothed horizontal input has
    stopped changing (a tick without change multiplies the velocity by
    0.95), the velocity after [n] further ticks is the velocity
    at that moment times [0.95 ^ n], whatever the frame deltas: its
    magnitude never exceeds the magnitude it started from, and it falls
    below every positive bound after enough ticks. *)
Theorem C8_rotation_momentum :
  forall (inp : App.Point2) (st : Experience.State) (ry : R),
    Experience.group_rotation_y st = Some ry ->
    (forall dt,
        let st' := Experience.useFrame inp dt st in
        let deltaX := App.px (Experience.currentInput st') - Experience.lastX st in
        Experience.velocity st'
        = (Experience.velocity st + 0.5 * deltaX) * 0.95 /\
        Experience.group_rotation_y st'
        = Some (ry + 0.002 + Experience.velocity st') /\
        (deltaX = 0 ->
         Experience.velocity st' = 0.95 * Experience.velocity st)) /\
    (Experience.settled inp st ->
     (forall dts,
         Experience.velocity (Experience.run inp dts st)
         = Experience.velocity st * 0.95 ^ List.length dts /\
         Rabs (Experience.velocity (Experience.run inp dts st))
         <= Rabs (Experience.velocity st)) /\
     (forall eps,
         0 < eps ->
         exists N : nat,
           forall dts,
             (N <= List.length dts)%nat ->
             Rabs (Experience.velocity (Experience.run inp dts st)) < eps)).
Proof.
  intros inp st ry Hg. split.
  - intros dt st' deltaX.
    destruct (useFrame_momentum inp dt st ry Hg) as (Hv & _ & Hr).
    fold st' in Hv, Hr. split; [|split].
    + rewrite Hv. unfold deltaX. ring.
    + rewrite Hr. f_equal. ring.
    + intros Hz. rewrite Hv. fold deltaX. rewrite Hz. ring.
  - intros Hs. split.
    + intros dts. rewrite (run_settled inp dts st ry Hg Hs). split; auto.
      rewrite Rabs_mult.
      pose proof (decay_le_1 (List.length dts)) as [Hlo Hhi].
      rewrite (Rabs_pos_eq (0.95 ^ _)) by exact Hlo.
      pose proof (Rabs_pos (Experience.velocity st)). nra.
    + intros eps Heps.
      destruct (Req_dec (Experience.velocity st) 0) as [Hz|Hnz].
      * exists 0%nat. intros dts _.
        rewrite (run_settled inp dts st ry Hg Hs), Hz, Rmult_0_l, Rabs_R0.
        exact Heps.
      * assert (Hpos : 0 < Rabs (Experience.velocity st))
          by (apply Rabs_pos_lt; exact Hnz).
        assert (Hr : Rabs 0.95 < 1) by (rewrite Rabs_pos_eq; lra).
        destruct (pow_lt_1_zero 0.95 Hr (eps / Rabs (Experience.velocity st)))
          as [N HN].
        { apply Rdiv_lt_0_compat; assumption. }
        exists N. intros dts Hlen.
        rewrite (run_settled inp dts st ry Hg Hs), Rabs_mult.
        specialize (HN (List.length dts) Hlen).
        apply (Rmult_lt_compat_l _ _ _ Hpos) in HN.
        replace (Rabs (Experience.velocity st)
                 * (eps / Rabs (Experience.velocity st)))
          with eps in HN by (field; lra).
        exact HN.
Qed.

(** The group spinning at velocity 0.2 with the pointer at rest in the
    centre: two more ticks leave the velocity at [0.2 * 0.95 ^ 2]. *)
Lemma C8_witness :
  let st :=
    Experience.mkState (App.mkPoint2 0 0) 0.2 0 (Three.mkVector3 0 0 32)
                       (Some 0) in
  Experience.velocity (Experience.run (App.mkPoint2 0 0) [0.016; 0.5] st)
  = 0.2 * 0.95 ^ 2.
Proof.
  intros st.
  destruct (C8_rotation_momentum (App.mkPoint2 0 0) st 0 eq_refl)
    as (_ & Hsettled).
  destruct (Hsettled (conj eq_refl eq_refl)) as (Hrun & _).
  exact (proj1 (Hrun [0.016; 0.5])).
Defined.

(** ** Chaos layout of the photos *)

Section PhotoChaos.

Import Random Three.

Variable generateFoliageData : nat -> R -> R -> Rand (nat -> R).
Variable randomVector3 : R -> Rand Vector3.

(** The chaos position of a photo, read off the four draws it takes. *)
Lemma photo_chaos_draws (s : nat -> R) (k : nat) :
  Ornaments.photo_chaos s k
  = (mkVector3 ((14 + s (S k) * 4) * cos (s k * PI * 2))
               ((s (S (S k)) - 0.5) * 20)
               ((14 + s (S k) * 4) * sin (s k * PI * 2)),
     (s (S (S (S k))) - 0.5) * 0.5,
     S (S (S (S k)))).
Proof. reflexivity. Qed.

Lemma data_item_photo_chaos (colors : option (list string)) (scale : R)
      (target : nat -> R) (i : nat) (s : nat -> R) (c : nat) :
  Ornaments.chaosPos
    (fst (Ornaments.data_item randomVector3 Ornaments.PHOTO colors scale
            target i s c))
  = fst (fst (Ornaments.photo_chaos s c)).
Proof.
  unfold Ornaments.data_item, Ornaments.chaos_of.
  cbn [Ornaments.type_eqb]. rewrite photo_chaos_draws.
  unfold bind at 1. rewrite photo_chaos_draws.
  destruct colors as [cs|]; reflexivity.
Qed.

Lemma data_loop_photo_chaos (colors : option (list string)) (scale : R)
      (target : nat -> R) (n i : nat) (s : nat -> R) (c : nat)
      (item : Ornaments.OrnamentData) :
  In item
     (fst (Ornaments.data_loop randomVector3 Ornaments.PHOTO colors scale
             target n i s c)) ->
  exists k, Ornaments.chaosPos item = fst (fst (Ornaments.photo_chaos s k)).
Proof.
  revert i c. induction n as [|n IH]; intros i c Hin; [destruct Hin|].
  cbn [Ornaments.data_loop] in Hin. unfold bind at 1 in Hin.
  pose proof (data_item_photo_chaos colors scale target i s c) as Hitem.
  destruct (Ornaments.data_item _ _ _ _ _ _ s c) as [it c'].
  unfold bind at 1 in Hin. specialize (IH (S i) c').
  destruct (Ornaments.data_loop _ _ _ _ _ _ _ s c') as [rest c''].
  cbn in Hin, Hitem, IH. destruct Hin as [<-|Hin].
  - exists c. exact Hitem.
  - apply IH, Hin.
Qed.

Lemma data_photo_chaos (count : nat) (colors : option (list string))
      (scale : option R) (s : nat -> R) (c : nat)
      (item : Ornaments.OrnamentData) :
  In item
     (fst (Ornaments.data generateFoliageData randomVector3 Ornaments.PHOTO
             count colors scale s c)) ->
  exists k, Ornaments.chaosPos item = fst (fst (Ornaments.photo_chaos s k)).
Proof.
  unfold Ornaments.data, bind.
  destruct (generateFoliageData count 18 7 s c) as [target c'].
  apply data_loop_photo_chaos.
Qed.

Lemma tree_outer_radius_value : Scene.tree_outer_radius = 8.05.
Proof.
  unfold Scene.tree_outer_radius, Scene.foliage_radius,
    Scene.spiral_radius, Rmax.
  cbn [Ornaments.pushOut Ornaments.type_eqb].
  destruct (Rle_dec _ _); lra.
Qed.

Lemma cylinder_radius (r theta h : R) :
  Scene.horizontal_radius_sq (mkVector3 (r * cos theta) h (r * sin theta))
  = r * r.
Proof.
  unfold Scene.horizontal_radius_sq. cbn.
  pose proof (sin2_cos2 theta) as H. unfold Rsqr in H. nra.
Qed.

End PhotoChaos.

(** C9.  Every object of a generated PHOTO population has a cylindrical
    chaos position [(radius * cos theta, height, radius * sin theta)] whose
    three coordinates come from three successive draws [u1], [u2], [u3] of
    [Math.random()]: [theta = 2 pi u1] in [[0, 2 pi)], [radius = 14 + 4 u2]
    in [[14, 18)], [height = 20 (u3 - 1/2)] in [[-10, 10)].  Its distance
    from the vertical axis is [radius], above the tree's outer radius, so
    it lies outside the tree. *)
Theorem C9_photo_chaos_cylinder :
  forall generateFoliageData randomVector3 count colors scale s c item,
    Random.draws_in_unit s ->
    In item
       (fst (Ornaments.data generateFoliageData randomVector3 Ornaments.PHOTO
               count colors scale s c)) ->
    exists (k : nat) (theta radius height : R),
      theta = 2 * PI * s k /\
      radius = 14 + 4 * s (S k) /\
      height = 20 * (s (S (S k)) - 1 / 2) /\
      0 <= theta < 2 * PI /\
      14 <= radius < 18 /\
      -10 <= height < 10 /\
      Ornaments.chaosPos item
      = Three.mkVector3 (radius * cos theta) height (radius * sin theta) /\
      Scene.horizontal_radius_sq (Ornaments.chaosPos item) = radius * radius /\
      Scene.tree_outer_radius < 14 /\
      Scene.tree_outer_radius * Scene.tree_outer_radius
      < Scene.horizontal_radius_sq (Ornaments.chaosPos item).
Proof.
  intros gen rv count colors scale s c item Hs Hin.
  destruct (data_photo_chaos gen rv count colors scale s c item Hin)
    as [k Hk].
  rewrite photo_chaos_draws in Hk. cbn [fst] in Hk.
  pose proof (Hs k) as H1. pose proof (Hs (S k)) as H2.
  pose proof (Hs (S (S k))) as H3. pose proof PI_RGT_0 as Hpi.
  exists k, (2 * PI * s k), (14 + 4 * s (S k)), (20 * (s (S (S k)) - 1 / 2)).
  assert (Hpos : Ornaments.chaosPos item
                 = Three.mkVector3
                     ((14 + 4 * s (S k)) * cos (2 * PI * s k))
                     (20 * (s (S (S k)) - 1 / 2))
                     ((14 + 4 * s (S k)) * sin (2 * PI * s k))).
  { rewrite Hk.
    replace (s k * PI * 2) with (2 * PI * s k) by ring.
    f_equal; lra. }
  assert (Hrad : Scene.horizontal_radius_sq (Ornaments.chaosPos item)
                 = (14 + 4 * s (S k)) * (14 + 4 * s (S k))).
  { rewrite Hpos. apply cylinder_radius. }
  repeat split; try reflexivity; try lra; try nra; try assumption.
  - rewrite tree_outer_radius_value. lra.
  - rewrite Hrad, tree_outer_radius_value. nra.
Qed.

(** Two photos generated from a stream whose draws are all 1/2, over a
    target layout at the origin: both lie outside the tree. *)
Lemma C9_witness :
  Forall
    (fun item =>
       Scene.tree_outer_radius * Scene.tree_outer_radius
       < Scene.horizontal_radius_sq (Ornaments.chaosPos item))
    (fst (Ornaments.data
            (fun _ _ _ => Random.ret (fun _ => 0))
            (fun _ => Random.ret (Three.mkVector3 0 0 0))
            Ornaments.PHOTO 2 None None (fun _ => 1 / 2) 0%nat)).
Proof.
  apply Forall_forall. intros item Hin.
  assert (Hs : Random.draws_in_unit (fun _ : nat => 1 / 2)).
  { intros n. lra. }
  destruct (C9_photo_chaos_cylinder _ _ _ _ _ _ _ item Hs Hin)
    as (k & theta & radius & height & H).
  apply H.
Defined.

(** ** The first frame *)

(** C10, as stated, fails when the first frame arrives with a mix target
    other than 1.  A photo frame and a ball, scattered at (10, 0, 0) and
    formed at (0, 2, 0), start with blend 1; a first frame of 0.1 s with
    mix target 0 moves the blend to 0.8 and puts the object at
    (2, 1.6, 0), not at its target. *)
Lemma C10_first_frame_counterexample :
  let item :=
    Ornaments.mkOrnamentData
      (Three.mkVector3 10 0 0) (Three.mkVector3 0 2 0) (Three.mkEuler 0 0 0)
      None (Three.mkVector3 1 1 1) (Three.mkVector3 1 1 1) 0 in
  let photo :=
    Ornaments.PhotoFrameMesh.useFrame item 0 (Three.mkVector3 0 0 32) 0.1
      (Ornaments.PhotoFrameMesh.init true) in
  let balls :=
    Ornaments.useFrame Ornaments.BALL [item] 0 0.1
      (Ornaments.useLayoutEffect Ornaments.BALL [item]
         (Ornaments.init 1 true)) in
  Ornaments.PhotoFrameMesh.currentMixRef photo = 0.8 /\
  option_map Three.position (Ornaments.PhotoFrameMesh.group photo)
  = Some (Three.mkVector3 2 1.6 0) /\
  option_map Three.position (Ornaments.PhotoFrameMesh.group photo)
  <> Some (Ornaments.targetPos item) /\
  Ornaments.currentMixRef balls = 0.8 /\
  option_map Three.position (InstancedMesh.instance (Ornaments.mesh balls) 0)
  = Some (Three.mkVector3 2 1.6 0) /\
  option_map Three.position (InstancedMesh.instance (Ornaments.mesh balls) 0)
  <> Some (Ornaments.targetPos item).
Proof.
  intros item photo balls.
  assert (L : UtilsMath.lerp 1 0 (2.0 * 0.1) = 0.8).
  { unfold UtilsMath.lerp, Rmin. destruct (Rle_dec _ _); lra. }
  assert (P : Three.lerpVectors (Three.mkVector3 10 0 0)
                (Three.mkVector3 0 2 0) 0.8 = Three.mkVector3 2 1.6 0).
  { unfold Three.lerpVectors. cbn. f_equal; lra. }
  assert (Bp : Ornaments.PhotoFrameMesh.currentMixRef photo = 0.8).
  { unfold photo. erewrite photo_useFrame_blend; [exact L| |]; reflexivity. }
  assert (Pp : option_map Three.position (Ornaments.PhotoFrameMesh.group photo)
               = Some (Three.mkVector3 2 1.6 0)).
  { destruct (photo_useFrame_group item 0 0.1 (Three.mkVector3 0 0 32)
                (Ornaments.PhotoFrameMesh.init true) Three.new_Object3D 0
                eq_refl eq_refl) as (g' & Hg' & Hpos & _).
    fold photo in Hg', Hpos. rewrite Hg'. cbn [option_map].
    rewrite Hpos, Bp. cbn [Ornaments.chaosPos Ornaments.targetPos item].
    rewrite P. reflexivity. }
  assert (Bb : Ornaments.currentMixRef balls = 0.8).
  { unfold balls. erewrite ornaments_useFrame_blend; [exact L| |]; reflexivity. }
  assert (Pb : option_map Three.position
                 (InstancedMesh.instance (Ornaments.mesh balls) 0)
               = Some (Three.mkVector3 2 1.6 0)).
  { pose proof (ornaments_useFrame_instance Ornaments.BALL [item] 0 0.1
                  (Ornaments.useLayoutEffect Ornaments.BALL [item]
                     (Ornaments.init 1 true))
                  _ 0%nat item eq_refl eq_refl (le_n 1) eq_refl) as Hinst.
    cbv zeta in Hinst. fold balls in Hinst. rewrite Hinst. cbn [option_map].
    rewrite ornaments_frame_item_position, Bb.
    cbn [Ornaments.chaosPos Ornaments.targetPos item].
    rewrite P. reflexivity. }
  assert (Hne : Some (Three.mkVector3 2 1.6 0)
                <> Some (Ornaments.targetPos item)).
  { cbn. intros H. injection H as Hx _. lra. }
  repeat split; try assumption.
  - rewrite Pp. exact Hne.
  - rewrite Pb. exact Hne.
Qed.

(** *** The layout effect of an instanced population *)

Section LayoutEffect.

Import Three InstancedMesh.

Lemma ornaments_layout_instance (type : Ornaments.OrnamentType)
      (data : list Ornaments.OrnamentData) (st : Ornaments.State)
      (buf : Buffer) (i : nat) (item : Ornaments.OrnamentData) :
  Ornaments.type_eqb type Ornaments.PHOTO = false ->
  Ornaments.mesh st = Some buf ->
  (List.length data <= List.length buf)%nat ->
  nth_error data i = Some item ->
  instance (Ornaments.mesh (Ornaments.useLayoutEffect type data st)) i
  = Some (mkObject3D (Ornaments.targetPos item)
                     (FromEuler (Ornaments.rotation item))
                     (Ornaments.targetScale item)).
Proof.
  intros Hty Hmesh Hlen Hi.
  unfold Ornaments.useLayoutEffect. rewrite Hmesh, Hty.
  destruct (Ornaments.layout_forEach _ _ _) as [d buf'] eqn:E. cbn.
  unfold Ornaments.layout_forEach in E.
  destruct (forEach_write_nth _
              (fun (_ : nat) item => Ornaments.layout_item item)
              data 0 i (Ornaments.dummy st) buf item Hi)
    as [d' Hd']; [cbn; lia|].
  rewrite E in Hd'. cbn in Hd'. rewrite Hd'. reflexivity.
Qed.

End LayoutEffect.

(** *** The blend at 1 *)

Section BlendAtOne.

Lemma utils_lerp_leaves_one (mix s : R) :
  mix <> 1 -> 0 < s -> UtilsMath.lerp 1 mix s <> 1.
Proof.
  intros Hm Hs. unfold UtilsMath.lerp, Rmin.
  destruct (Rle_dec s 1); nra.
Qed.

Local Open Scope float_scope.

Lemma Prim2SF_zero : Prim2SF 0 = S754_zero false.
Proof. vm_compute. reflexivity. Qed.

Lemma Prim2SF_one : Prim2SF 1 = S754_finite false 4503599627370496 (-52).
Proof. vm_compute. reflexivity. Qed.

(** Two positive finite numbers are ordered one way or the other. *)
Lemma SF_finite_ordered (m1 m2 : positive) (e1 e2 : Z) :
  SFleb (S754_finite false m1 e1) (S754_finite false m2 e2) = false ->
  SFltb (S754_finite false m2 e2) (S754_finite false m1 e1) = false ->
  False.
Proof.
  unfold SFleb, SFltb, SFcompare.
  rewrite (Z.compare_antisym e1 e2).
  assert (Ha : Pos.compare_cont Eq m2 m1
               = CompOpp (Pos.compare_cont Eq m1 m2))
    by (symmetry; apply (Pos.compare_cont_antisym m1 m2 Eq)).
  rewrite Ha.
  destruct (e1 ?= e2)%Z; cbn [CompOpp]; try discriminate.
  destruct (Pos.compare_cont Eq m1 m2); cbn [CompOpp]; discriminate.
Qed.

(** A speed that is not negative gives a finite smoothing factor. *)
Lemma double_min_one_finite (t : float) :
  PrimFloat.leb 0 t = true -> Double.finite (Double.min t 1).
Proof.
  intros H0. unfold Double.min, Double.finite.
  destruct (PrimFloat.leb t 1) eqn:E1; [|destruct (PrimFloat.ltb 1 t) eqn:E2].
  - rewrite leb_spec in H0, E1.
    rewrite Prim2SF_zero in H0. rewrite Prim2SF_one in E1.
    destruct (Prim2SF t) as [st|st| |st mt et]; try exact I.
    + destruct st; [vm_compute in H0; discriminate H0
                   |vm_compute in E1; discriminate E1].
    + vm_compute in H0. discriminate H0.
  - rewrite Prim2SF_one. exact I.
  - exfalso. rewrite leb_spec in H0, E1. rewrite ltb_spec in E2.
    rewrite Prim2SF_zero in H0. rewrite Prim2SF_one in E1, E2.
    destruct (Prim2SF t) as [st|st| |st mt et].
    + vm_compute in E1. discriminate E1.
    + destruct st; [vm_compute in H0; discriminate H0|].
      vm_compute in E2. discriminate E2.
    + vm_compute in H0. discriminate H0.
    + destruct st; [vm_compute in H0; discriminate H0|].
      exact (SF_finite_ordered _ _ _ _ E1 E2).
Qed.

(** From blend 1 toward mix target 1 the blend stays 1, bit for bit. *)
Lemma double_blend_stays_one (delta : float) :
  PrimFloat.leb 0 (2.0 * delta) = true -> Double.blend 1 1 delta = 1.
Proof.
  intros H0. unfold Double.blend, Double.lerp.
  pose proof (double_min_one_finite _ H0) as Hf. unfold Double.finite in Hf.
  change (1 - 1) with 0.
  apply Prim2SF_inj. rewrite add_spec, mul_spec.
  rewrite Prim2SF_zero, Prim2SF_one.
  destruct (Prim2SF (Double.min (2.0 * delta) 1)) as [sk|sk| |sk mk ek];
    try contradiction; reflexivity.
Qed.

End BlendAtOne.

(** C10, amended.  Every smoothed blend - of an instanced population, of
    the spiral strip, of a photo frame - starts at exactly 1, and the mix
    target of the application starts at 1 too.  Before the first frame the
    layout effect of an instanced population writes every object exactly at
    its target position, rotation and scale.  A frame that finds the blend
    at 1 and the mix target at 1 leaves the blend at 1, whatever its delta
    (in binary64 too, for a delta that is not negative), and writes every
    object at the blend-1 interpolation [chaos + (target - chaos) * 1] of
    its positions (and, for the ornaments, of its scales).  With any other
    mix target, a first frame with a positive delta moves the blend away
    from 1. *)
Theorem C10_initial_blend_and_first_frame :
  ((forall count mounted,
       Ornaments.currentMixRef (Ornaments.init count mounted) = 1) /\
   (forall mounted,
       SpiralLights.currentMixRef (SpiralLights.init mounted) = 1) /\
   (forall mounted,
       Ornaments.PhotoFrameMesh.currentMixRef
         (Ornaments.PhotoFrameMesh.init mounted) = 1) /\
   App.targetMix App.init = 1) /\
  (forall type data st buf i item,
      Ornaments.type_eqb type Ornaments.PHOTO = false ->
      Ornaments.mesh st = Some buf ->
      (List.length data <= List.length buf)%nat ->
      nth_error data i = Some item ->
      InstancedMesh.instance
        (Ornaments.mesh (Ornaments.useLayoutEffect type data st)) i
      = Some (Three.mkObject3D (Ornaments.targetPos item)
                (Three.FromEuler (Ornaments.rotation item))
                (Ornaments.targetScale item))) /\
  (forall type data mix dt st buf i item,
      Ornaments.type_eqb type Ornaments.PHOTO = false ->
      Ornaments.currentMixRef st = 1 ->
      Ornaments.mesh st = Some buf ->
      (List.length data <= List.length buf)%nat ->
      nth_error data i = Some item ->
      let st' := Ornaments.useFrame type data mix dt st in
      let m := InstancedMesh.instance (Ornaments.mesh st') i in
      (mix = 1 ->
       Ornaments.currentMixRef st' = 1 /\
       option_map Three.position m
       = Some (Three.lerpVectors (Ornaments.chaosPos item)
                 (Ornaments.targetPos item) 1) /\
       option_map Three.scale m
       = Some (Three.lerpVectors (Ornaments.chaosScale item)
                 (Ornaments.targetScale item) 1)) /\
      (mix <> 1 -> 0 < dt -> Ornaments.currentMixRef st' <> 1)) /\
  (forall target chaos mix time dt st buf i,
      SpiralLights.currentMixRef st = 1 ->
      SpiralLights.mesh st = Some buf ->
      (SpiralLights.count <= List.length buf)%nat ->
      (i < SpiralLights.count)%nat ->
      let st' := SpiralLights.useFrame target chaos mix time dt st in
      (mix = 1 ->
       SpiralLights.currentMixRef st' = 1 /\
       option_map Three.position
         (InstancedMesh.instance (SpiralLights.mesh st') i)
       = Some (Three.lerpVectors (SpiralLights.chaosAt chaos i)
                 (SpiralLights.targetAt target i) 1)) /\
      (mix <> 1 -> 0 < dt -> SpiralLights.currentMixRef st' <> 1)) /\
  (forall item mix cam dt st g rz,
      Ornaments.PhotoFrameMesh.currentMixRef st = 1 ->
      Ornaments.PhotoFrameMesh.group st = Some g ->
      Ornaments.PhotoFrameMesh.inner_rotation_z st = Some rz ->
      let st' := Ornaments.PhotoFrameMesh.useFrame item mix cam dt st in
      (mix = 1 ->
       Ornaments.PhotoFrameMesh.currentMixRef st' = 1 /\
       option_map Three.position (Ornaments.PhotoFrameMesh.group st')
       = Some (Three.lerpVectors (Ornaments.chaosPos item)
                 (Ornaments.targetPos item) 1) /\
       option_map Three.scale (Ornaments.PhotoFrameMesh.group st')
       = Some (Three.lerpVectors (Ornaments.chaosScale item)
                 (Ornaments.targetScale item) 1)) /\
      (mix <> 1 -> 0 < dt ->
       Ornaments.PhotoFrameMesh.currentMixRef st' <> 1)) /\
  (forall delta : float,
      PrimFloat.leb 0 (2.0 * delta) = true ->
      Double.blend 1 1 delta = 1%float).
Proof.
  split; [|split; [|split; [|split; [|split]]]].
  - repeat split; intros; reflexivity.
  - intros type data st buf i item Hty Hmesh Hlen Hi.
    apply (ornaments_layout_instance type data st buf i item); assumption.
  - intros type data mix dt st buf i item Hty H1 Hmesh Hlen Hi st' m.
    assert (Hb : Ornaments.currentMixRef st' = UtilsMath.lerp 1 mix (2.0 * dt)).
    { unfold st'. rewrite (ornaments_useFrame_blend _ _ _ _ _ buf Hty Hmesh).
      rewrite H1. reflexivity. }
    split.
    + intros ->. rewrite utils_lerp_fixed in Hb.
      pose proof (ornaments_useFrame_instance type data 1 dt st buf i item
                    Hty Hmesh Hlen Hi) as Hinst.
      cbv zeta in Hinst. fold st' in Hinst. fold m in Hinst.
      rewrite Hinst, Hb. cbn [option_map].
      rewrite ornaments_frame_item_position, ornaments_frame_item_scale.
      auto.
    + intros Hm Hdt. rewrite Hb. apply utils_lerp_leaves_one; lra.
  - intros target chaos mix time dt st buf i H1 Hmesh Hlen Hi st'.
    assert (Hb : SpiralLights.currentMixRef st'
                 = UtilsMath.lerp 1 mix (2.0 * dt)).
    { unfold st'. rewrite (spiral_useFrame_blend _ _ _ _ _ _ buf Hmesh).
      rewrite H1. reflexivity. }
    split.
    + intros ->. rewrite utils_lerp_fixed in Hb.
      destruct (spiral_useFrame_instance target chaos 1 time dt st buf i
                  Hmesh Hlen Hi) as [d Hinst].
      fold st' in Hinst. rewrite Hinst, Hb. cbn [option_map].
      rewrite spiral_frame_item_position by lra. auto.
    + intros Hm Hdt. rewrite Hb. apply utils_lerp_leaves_one; lra.
  - intros item mix cam dt st g rz H1 Hg Hrz st'.
    assert (Hb : Ornaments.PhotoFrameMesh.currentMixRef st'
                 = UtilsMath.lerp 1 mix (2.0 * dt)).
    { unfold st'. rewrite (photo_useFrame_blend _ _ _ _ _ g rz Hg Hrz).
      rewrite H1. reflexivity. }
    split.
    + intros ->. rewrite utils_lerp_fixed in Hb.
      destruct (photo_useFrame_group item 1 dt cam st g rz Hg Hrz)
        as (g' & Hg' & Hpos & Hsc).
      fold st' in Hg', Hpos, Hsc. rewrite Hg', Hb in *. cbn [option_map].
      rewrite Hpos, Hsc. auto.
    + intros Hm Hdt. rewrite Hb. apply utils_lerp_leaves_one; lra.
  - apply double_blend_stays_one.
Qed.

(** The first frame of a ball population at the application's initial mix
    target, after the layout effect: the blend is still 1. *)
Lemma C10_witness :
  let item :=
    Ornaments.mkOrnamentData
      (Three.mkVector3 10 0 0) (Three.mkVector3 0 2 0) (Three.mkEuler 0 0 0)
      None (Three.mkVector3 1 1 1) (Three.mkVector3 1 1 1) 0 in
  let st :=
    Ornaments.useLayoutEffect Ornaments.BALL [item] (Ornaments.init 1 true) in
  let st' :=
    Ornaments.useFrame Ornaments.BALL [item] (App.targetMix App.init) 0.016
                       st in
  InstancedMesh.instance (Ornaments.mesh st) 0
  = Some (Three.mkObject3D (Three.mkVector3 0 2 0)
            (Three.FromEuler (Three.mkEuler 0 0 0)) (Three.mkVector3 1 1 1)) /\
  Ornaments.currentMixRef st' = 1 /\
  Double.blend 1 1 0.016 = 1%float.
Proof.
  intros item st st'.
  destruct C10_initial_blend_and_first_frame
    as (_ & Hlayout & Hframe & _ & _ & Hdouble).
  split; [|split].
  - apply (Hlayout Ornaments.BALL [item] (Ornaments.init 1 true)
             (InstancedMesh.new_buffer 1) 0%nat item);
      reflexivity.
  - destruct (Hframe Ornaments.BALL [item] (App.targetMix App.init) 0.016 st
                (InstancedMesh.setMatrixAt 0
                   (Ornaments.layout_item item Three.new_Object3D)
                   (InstancedMesh.new_buffer 1))
                0%nat item eq_refl eq_refl eq_refl (le_n 1) eq_refl)
      as [Hone _].
    apply Hone. reflexivity.
  - apply Hdouble. vm_compute. reflexivity.
Defined.

(** * Further properties of the code *)

(** ** The application state under any sequence of events *)

Section AppEvents.

Variable File : Type.
Variable createObjectURL : File -> string.

Lemma setTargetMix_if_changed_sets (newTarget prev : R) :
  App.setTargetMix_if_changed newTarget prev = newTarget.
Proof.
  unfold App.setTargetMix_if_changed.
  destruct (Req_dec_T prev newTarget) as [E|_]; [exact E|reflexivity].
Qed.

Lemma handle_keeps_binary (e : Events.Event File) (st : App.State) :
  Events.binary (App.targetMix st) ->
  Events.binary (App.targetMix (Events.handle File createObjectURL e st)).
Proof.
  intros Hb. destruct e as [data|cx cy w h| | |files]; cbn.
  - unfold App.handleGesture. destruct (App.isDetected data); cbn; auto.
    rewrite setTargetMix_if_changed_sets.
    destruct (App.isOpen data); [left|right]; reflexivity.
  - unfold App.handleMouseMove.
    destruct (negb (App.gestureDetected st) && App.debugMode st); cbn; auto.
  - destruct (Req_dec_T (App.targetMix st) 1); [left|right]; reflexivity.
  - unfold Events.toggleDebug. destruct (App.gestureDetected st); cbn; auto.
  - unfold App.handleFileChange. destruct files as [fs|]; auto.
    destruct (0 <? List.length fs)%nat; cbn; auto.
Qed.

Lemma handle_keeps_image_cap (e : Events.Event File) (st : App.State) :
  (List.length (App.userImages st) <= 30)%nat ->
  (List.length (App.userImages (Events.handle File createObjectURL e st))
   <= 30)%nat.
Proof.
  intros Hc. destruct e as [data|cx cy w h| | |files]; cbn.
  - unfold App.handleGesture. destruct (App.isDetected data); cbn; auto.
  - unfold App.handleMouseMove.
    destruct (negb (App.gestureDetected st) && App.debugMode st); cbn; auto.
  - exact Hc.
  - unfold Events.toggleDebug. destruct (App.gestureDetected st); cbn; auto.
  - unfold App.handleFileChange. destruct files as [fs|]; auto.
    destruct (0 <? List.length fs)%nat; [|exact Hc].
    cbn [App.userImages]. rewrite length_map, length_firstn. lia.
Qed.

Lemma run_keeps (P : App.State -> Prop)
      (events : list (Events.Event File)) :
  (forall e st, P st -> P (Events.handle File createObjectURL e st)) ->
  forall st, P st -> P (Events.run File createObjectURL events st).
Proof.
  intros Hstep. induction events as [|e rest IH]; intros st HP.
  - exact HP.
  - change (P (Events.run File createObjectURL rest
                 (Events.handle File createObjectURL e st))).
    apply IH, Hstep, HP.
Qed.

Lemma unit_fraction (a b : R) : 0 <= a <= b -> 0 < b -> 0 <= a / b <= 1.
Proof.
  intros Ha Hb.
  assert (Hq : a = a / b * b) by (field; lra).
  assert (Hi : 0 < / b) by (apply Rinv_0_lt_compat; exact Hb).
  split.
  - unfold Rdiv. nra.
  - destruct (Rle_dec (a / b) 1) as [H|H]; [exact H|]. nra.
Qed.

Lemma handle_keeps_pointer_box (e : Events.Event File) (st : App.State) :
  Events.in_range File e ->
  Events.pointer_box (App.inputRef st) ->
  Events.pointer_box (App.inputRef (Events.handle File createObjectURL e st)).
Proof.
  intros He Hp. destruct e as [data|cx cy w h| | |files]; cbn in *.
  - unfold App.handleGesture. destruct (App.isDetected data); cbn; auto.
    unfold Events.pointer_box. cbn. lra.
  - unfold App.handleMouseMove.
    destruct (negb (App.gestureDetected st) && App.debugMode st); cbn; auto.
    destruct He as (Hx & Hy & Hw & Hh).
    pose proof (unit_fraction cx w Hx Hw).
    pose proof (unit_fraction cy h Hy Hh).
    unfold Events.pointer_box. cbn. lra.
  - exact Hp.
  - unfold Events.toggleDebug. destruct (App.gestureDetected st); cbn; auto.
  - unfold App.handleFileChange. destruct files as [fs|]; auto.
    destruct (0 <? List.length fs)%nat; cbn; auto.
Qed.

Lemma run_keeps_pointer_box (events : list (Events.Event File))
      (st : App.State) :
  Forall (Events.in_range File) events ->
  Events.pointer_box (App.inputRef st) ->
  Events.pointer_box (App.inputRef (Events.run File createObjectURL events st)).
Proof.
  intros Hall. revert st.
  induction Hall as [|e rest He _ IH]; intros st Hp.
  - exact Hp.
  - change (Events.pointer_box
              (App.inputRef
                 (Events.run File createObjectURL rest
                    (Events.handle File createObjectURL e st)))).
    apply IH, handle_keeps_pointer_box; assumption.
Qed.

End AppEvents.

(** X1.  Whatever gestures, mouse moves, button presses and uploads
    reach the application, in whatever order, its mix target is 0 or 1 and
    it holds at most 30 images. *)
Theorem X1_app_mix_binary_images_capped :
  forall (File : Type) (createObjectURL : File -> string)
         (events : list (Events.Event File)),
    let st := Events.run File createObjectURL events App.init in
    Events.binary (App.targetMix st) /\
    (List.length (App.userImages st) <= 30)%nat.
Proof.
  intros File url events st. split.
  - apply (run_keeps File url (fun st => Events.binary (App.targetMix st))).
    + apply handle_keeps_binary.
    + right. reflexivity.
  - apply (run_keeps File url
             (fun st => (List.length (App.userImages st) <= 30)%nat)).
    + apply handle_keeps_image_cap.
    + cbn. lia.
Qed.

(** X2.  When every gesture position lies in [[-1, 1]] on both axes and
    every mouse move happens inside a window of positive size, the pointer
    input stays in [[-1.2, 1.2]] across and [[-1, 1]] up, through any
    sequence of events. *)
Theorem X2_pointer_input_in_range :
  forall (File : Type) (createObjectURL : File -> string)
         (events : list (Events.Event File)),
    Forall (Events.in_range File) events ->
    Events.pointer_box
      (App.inputRef (Events.run File createObjectURL events App.init)).
Proof.
  intros File url events Hall.
  apply run_keeps_pointer_box; [exact Hall|].
  unfold Events.pointer_box. cbn. lra.
Qed.

(** A closed fist at the right edge, then the mouse at the top left
    corner of an 800 by 600 window. *)
Lemma X2_witness :
  Events.pointer_box
    (App.inputRef
       (Events.run unit (fun _ => "blob:a"%string)
          [Events.Gesture unit
             (App.mkHandGesture true false (App.mkPoint2 1 (-1)));
           Events.MouseMove unit 0 0 800 600]
          App.init)).
Proof.
  apply X2_pointer_input_in_range.
  repeat constructor; cbn; lra.
Defined.

(** X3.  The UNLEASH/FORM button flips a mix target of 0 or 1 to the
    other state, so pressing it twice restores the application state. *)
Theorem X3_toggle_flips_and_returns :
  forall st : App.State,
    Events.binary (App.targetMix st) ->
    App.targetMix (App.toggleState st) = 1 - App.targetMix st /\
    App.toggleState (App.toggleState st) = st.
Proof.
  intros [mix inp det dbg imgs] Hb. cbn in Hb. unfold App.toggleState. cbn.
  destruct Hb as [-> | ->].
  - destruct (Req_dec_T 0 1) as [E|_]; [lra|]. cbn.
    destruct (Req_dec_T 1 1) as [_|N]; [|lra]. split; [lra|reflexivity].
  - destruct (Req_dec_T 1 1) as [_|N]; [|lra]. cbn.
    destruct (Req_dec_T 0 1) as [E|_]; [lra|]. split; [lra|reflexivity].
Qed.

Lemma X3_witness :
  App.toggleState (App.toggleState App.init) = App.init.
Proof.
  apply X3_toggle_flips_and_returns. right. reflexivity.
Defined.

(** X4.  A detected gesture takes the pointer away from the mouse: after
    it, mouse moves and presses of the mouse-mode button, in any number
    and order, leave the application state as the gesture left it. *)
Theorem X4_detected_gesture_overrides_mouse :
  forall (File : Type) (createObjectURL : File -> string)
         (data : App.HandGesture) (st : App.State)
         (events : list (Events.Event File)),
    App.isDetected data = true ->
    Forall (Events.mouse_mode File) events ->
    Events.run File createObjectURL events (App.handleGesture data st)
    = App.handleGesture data st.
Proof.
  intros File url data st events Hd Hall.
  assert (Hg : App.gestureDetected (App.handleGesture data st) = true).
  { unfold App.handleGesture. rewrite Hd. reflexivity. }
  revert Hg. generalize (App.handleGesture data st) as s0.
  induction Hall as [|e rest He _ IH]; intros s0 Hg; [reflexivity|].
  cbn [Events.run].
  assert (Hs : Events.handle File url e s0 = s0).
  { destruct e; cbn in He; try contradiction; cbn.
    - unfold App.handleMouseMove. rewrite Hg. reflexivity.
    - unfold Events.toggleDebug. rewrite Hg. reflexivity. }
  rewrite Hs. apply IH, Hg.
Qed.

Lemma X4_witness :
  let st :=
    App.handleGesture (App.mkHandGesture true true (App.mkPoint2 0.5 0))
                      App.init in
  Events.run unit (fun _ => "blob:a"%string)
    [Events.ToggleDebug unit; Events.MouseMove unit 10 10 800 600] st
  = st.
Proof.
  intros st.
  apply X4_detected_gesture_overrides_mouse; [reflexivity|].
  repeat constructor.
Defined.

(** X5.  A gesture sample that arrives twice does what it does once. *)
Theorem X5_gesture_sample_idempotent :
  forall (data : App.HandGesture) (st : App.State),
    App.handleGesture data (App.handleGesture data st)
    = App.handleGesture data st.
Proof.
  intros data st. unfold App.handleGesture.
  destruct (App.isDetected data) eqn:Hd; cbn; [|reflexivity].
  rewrite !setTargetMix_if_changed_sets. reflexivity.
Qed.

(** ** The scene controller over any sequence of frames *)

Section ControllerFacts.

Import Three Experience.

Lemma Rabs_bounds (a b : R) : Rabs a <= b -> - b <= a <= b.
Proof.
  unfold Rabs. destruct (Rcase_abs a); lra.
Qed.

Lemma safeDelta_range (dt : R) : 0 <= dt -> 0 <= Rmin dt 0.1 <= 0.1.
Proof.
  intros H. unfold Rmin. destruct (Rle_dec dt 0.1); lra.
Qed.

Lemma safeDelta_idem (dt : R) : Rmin (Rmin dt 0.1) 0.1 = Rmin dt 0.1.
Proof.
  unfold Rmin. destruct (Rle_dec dt 0.1) as [H|H].
  - destruct (Rle_dec dt 0.1); lra.
  - destruct (Rle_dec 0.1 0.1); lra.
Qed.

Lemma useFrame_capped (inp : App.Point2) (dt : R) (st : State) :
  useFrame inp (Rmin dt 0.1) st = useFrame inp dt st.
Proof.
  unfold useFrame. rewrite safeDelta_idem. reflexivity.
Qed.

Lemma useFrame_input (inp : App.Point2) (dt : R) (st : State) :
  currentInput (useFrame inp dt st)
  = App.mkPoint2
      (MathUtils_lerp (App.px (currentInput st)) (App.px inp)
                      (3.0 * Rmin dt 0.1))
      (MathUtils_lerp (App.py (currentInput st)) (App.py inp)
                      (3.0 * Rmin dt 0.1)).
Proof.
  unfold useFrame. destruct (group_rotation_y st); reflexivity.
Qed.

Lemma useFrame_camera (inp : App.Point2) (dt : R) (st : State) :
  let c := currentInput (useFrame inp dt st) in
  camera_position (useFrame inp dt st)
  = lerp (camera_position st)
         (mkVector3 (App.px c * 4) (App.py c * 2) (32 + Rabs (App.px c) * 2))
         (2.0 * Rmin dt 0.1).
Proof.
  cbv zeta. rewrite useFrame_input.
  unfold useFrame. destruct (group_rotation_y st); reflexivity.
Qed.

Lemma useFrame_group (inp : App.Point2) (dt : R) (st : State) :
  (exists ry, group_rotation_y st = Some ry) ->
  exists ry', group_rotation_y (useFrame inp dt st) = Some ry'.
Proof.
  intros [ry H]. unfold useFrame. rewrite H. eexists. reflexivity.
Qed.

(** One coordinate of the smoothing: the distance to the target shrinks
    by the factor [1 - k]. *)
Lemma MathUtils_lerp_gap (a b k : R) :
  MathUtils_lerp a b k - b = (1 - k) * (a - b).
Proof. unfold MathUtils_lerp. ring. Qed.

Lemma MathUtils_lerp_between (a b k lo hi : R) :
  0 <= k <= 1 -> lo <= a <= hi -> lo <= b <= hi ->
  lo <= MathUtils_lerp a b k <= hi.
Proof. intros Hk Ha Hb. unfold MathUtils_lerp. nra. Qed.

Lemma useFrame_steady (inp : App.Point2) (dt : R) (st : State) :
  Events.pointer_box inp -> 0 <= dt ->
  Controller.steady st -> Controller.steady (useFrame inp dt st).
Proof.
  intros [Hix Hiy] Hdt [[Hcx Hcy] (Hx & Hy & Hz)].
  pose proof (safeDelta_range dt Hdt) as Hsd.
  assert (Hbox : Events.pointer_box (currentInput (useFrame inp dt st))).
  { rewrite useFrame_input. split; cbn;
      apply MathUtils_lerp_between; auto; lra. }
  split; [exact Hbox|].
  pose proof (useFrame_camera inp dt st) as Hcam. cbv zeta in Hcam.
  rewrite Hcam. destruct Hbox as [Hbx Hby].
  set (c := currentInput (useFrame inp dt st)) in *.
  assert (Ha : 0 <= Rabs (App.px c) <= 1.2).
  { split; [apply Rabs_pos|]. apply Rabs_le. lra. }
  set (k := 2.0 * Rmin dt 0.1). assert (Hk : 0 <= k <= 0.2) by (unfold k; lra).
  unfold Controller.camera_box, lerp. cbn. repeat split; nra.
Qed.

Lemma useFrame_bounded_momentum (inp : App.Point2) (dt ry : R) (st : State) :
  Events.pointer_box inp -> 0 <= dt ->
  group_rotation_y st = Some ry ->
  Events.pointer_box (currentInput st) ->
  Controller.bounded_momentum st ->
  Controller.bounded_momentum (useFrame inp dt st).
Proof.
  intros [Hix _] Hdt Hg [Hcx _] [Hl Hv].
  pose proof (safeDelta_range dt Hdt) as Hsd.
  destruct (useFrame_momentum inp dt st ry Hg) as (Hv' & Hl' & _).
  split; [exact Hl'|]. rewrite Hv', Hl.
  rewrite useFrame_input. cbn [App.px].
  set (k := 3.0 * Rmin dt 0.1). assert (Hk : 0 <= k <= 0.3) by (unfold k; lra).
  set (a := App.px (currentInput st)) in *. set (b := App.px inp) in *.
  replace (MathUtils_lerp a b k - a) with (k * (b - a))
    by (unfold MathUtils_lerp; ring).
  apply Rabs_le. apply Rabs_bounds in Hv. nra.
Qed.

End ControllerFacts.

(** X6.  The scene controller never sees a delta above 0.1 s: a run of
    frames leaves it in the state the same frames, each delta capped at
    0.1, leave it in - smoothed input, camera, velocity and angle alike. *)
Theorem X6_controller_run_capped :
  forall (frames : list (App.Point2 * R)) (st : Experience.State),
    Controller.run frames st = Controller.run (Controller.capped frames) st.
Proof.
  induction frames as [|[inp dt] rest IH]; intros st; [reflexivity|].
  cbn [Controller.run Controller.capped map fst snd].
  rewrite useFrame_capped. apply IH.
Qed.

(** X7.  A tick with a delta that is not negative moves each coordinate of
    the smoothed input toward the pointer input by the fraction
    [k = 3 min(dt, 0.1)], at most 0.3, of the gap: the gap shrinks by the
    factor [1 - k] and keeps its sign, so the smoothed input never
    overshoots and never moves away. *)
Theorem X7_pointer_smoothing_no_overshoot :
  forall (inp : App.Point2) (dt : R) (st : Experience.State),
    0 <= dt ->
    let st' := Experience.useFrame inp dt st in
    let k := 3 * Rmin dt 0.1 in
    let gap_x s := App.px (Experience.currentInput s) - App.px inp in
    let gap_y s := App.py (Experience.currentInput s) - App.py inp in
    0 <= k <= 0.3 /\
    gap_x st' = (1 - k) * gap_x st /\
    gap_y st' = (1 - k) * gap_y st /\
    Rabs (gap_x st') <= Rabs (gap_x st) /\
    Rabs (gap_y st') <= Rabs (gap_y st).
Proof.
  intros inp dt st Hdt st' k gap_x gap_y.
  pose proof (safeDelta_range dt Hdt) as Hsd.
  assert (Hk : 0 <= k <= 0.3) by (unfold k; lra).
  assert (Hx : gap_x st' = (1 - k) * gap_x st).
  { unfold gap_x, st'. rewrite useFrame_input. cbn [App.px].
    rewrite MathUtils_lerp_gap. unfold k. lra. }
  assert (Hy : gap_y st' = (1 - k) * gap_y st).
  { unfold gap_y, st'. rewrite useFrame_input. cbn [App.py].
    rewrite MathUtils_lerp_gap. unfold k. lra. }
  repeat split; try lra.
  - rewrite Hx, Rabs_mult, (Rabs_pos_eq (1 - k)) by lra.
    pose proof (Rabs_pos (gap_x st)). nra.
  - rewrite Hy, Rabs_mult, (Rabs_pos_eq (1 - k)) by lra.
    pose proof (Rabs_pos (gap_y st)). nra.
Qed.

Lemma X7_witness :
  let st := Experience.init (Some 0) in
  let st' := Experience.useFrame (App.mkPoint2 1.2 (-1)) 0.016 st in
  Rabs (App.px (Experience.currentInput st') - 1.2)
  <= Rabs (App.px (Experience.currentInput st) - 1.2).
Proof.
  intros st st'.
  assert (H : 0 <= 0.016) by lra.
  exact (proj1 (proj2 (proj2 (proj2
    (X7_pointer_smoothing_no_overshoot (App.mkPoint2 1.2 (-1)) 0.016 st H))))).
Defined.

Section Convergence.

Import Experience.

Lemma run_gap (coord : App.Point2 -> R) (inp : App.Point2) (d : R)
      (dts : list R) (st : State) :
  (forall dt s,
      0 <= dt ->
      coord (currentInput (useFrame inp dt s)) - coord inp
      = (1 - 3 * Rmin dt 0.1) * (coord (currentInput s) - coord inp)) ->
  0 < d <= 0.1 ->
  Forall (fun dt => d <= dt) dts ->
  Rabs (coord (currentInput (run inp dts st)) - coord inp)
  <= (1 - 3 * d) ^ List.length dts
     * Rabs (coord (currentInput st) - coord inp).
Proof.
  intros Hstep Hd Hall. revert st.
  induction Hall as [|dt rest Hdt _ IH]; intros st.
  - cbn. lra.
  - cbn [run List.length pow].
    eapply Rle_trans; [apply IH|].
    rewrite Hstep by lra.
    assert (Hm : d <= Rmin dt 0.1 <= 0.1).
    { unfold Rmin. destruct (Rle_dec dt 0.1); lra. }
    rewrite Rabs_mult, (Rabs_pos_eq (1 - 3 * Rmin dt 0.1)) by lra.
    assert (Hp : 0 <= (1 - 3 * d) ^ List.length rest)
      by (apply pow_le; lra).
    pose proof (Rabs_pos (coord (currentInput st) - coord inp)) as Ha.
    set (q := (1 - 3 * d) ^ List.length rest) in *.
    set (g := Rabs (coord (currentInput st) - coord inp)) in *.
    assert (Hqg : 0 <= q * g) by nra.
    nra.
Qed.

End Convergence.

(** X8.  With the pointer input held and every frame delta at least [d],
    for some [d] in [(0, 0.1]], the smoothed input closes in on the pointer
    input geometrically: after [n] ticks each coordinate's gap is at most
    [(1 - 3 d) ^ n] times the gap it started with. *)
Theorem X8_pointer_smoothing_converges :
  forall (inp : App.Point2) (d : R) (dts : list R) (st : Experience.State),
    0 < d <= 0.1 ->
    Forall (fun dt => d <= dt) dts ->
    let st' := Experience.run inp dts st in
    let rate := (1 - 3 * d) ^ List.length dts in
    Rabs (App.px (Experience.currentInput st') - App.px inp)
    <= rate * Rabs (App.px (Experience.currentInput st) - App.px inp) /\
    Rabs (App.py (Experience.currentInput st') - App.py inp)
    <= rate * Rabs (App.py (Experience.currentInput st) - App.py inp).
Proof.
  intros inp d dts st Hd Hall st' rate. split.
  - apply (run_gap App.px inp d dts st); auto.
    intros dt s Hdt. rewrite useFrame_input. cbn [App.px].
    rewrite MathUtils_lerp_gap. lra.
  - apply (run_gap App.py inp d dts st); auto.
    intros dt s Hdt. rewrite useFrame_input. cbn [App.py].
    rewrite MathUtils_lerp_gap. lra.
Qed.

(** Three frames at sixty frames a second toward the right edge. *)
Lemma X8_witness :
  let inp := App.mkPoint2 1.2 0 in
  let st := Experience.init (Some 0) in
  Rabs (App.px (Experience.currentInput
                  (Experience.run inp [0.016; 0.017; 0.016] st)) - 1.2)
  <= (1 - 3 * 0.016) ^ 3 * Rabs (App.px (Experience.currentInput st) - 1.2).
Proof.
  intros inp st.
  assert (Hd : 0 < 0.016 <= 0.1) by lra.
  assert (Hall : Forall (fun dt => 0.016 <= dt) [0.016; 0.017; 0.016]).
  { repeat constructor; lra. }
  exact (proj1 (X8_pointer_smoothing_converges inp 0.016 _ st Hd Hall)).
Defined.

Section ControllerRuns.

Import Experience.

Lemma run_steady (frames : list (App.Point2 * R)) (st : State) :
  Forall Controller.nominal frames ->
  Controller.steady st -> Controller.steady (Controller.run frames st).
Proof.
  intros Hall. revert st.
  induction Hall as [|[inp dt] rest [Hin Hdt] _ IH]; intros st Hs.
  - exact Hs.
  - cbn [Controller.run]. apply IH, useFrame_steady; assumption.
Qed.

Lemma init_steady (group : option R) : Controller.steady (init group).
Proof.
  unfold Controller.steady, Events.pointer_box, Controller.camera_box.
  cbn. lra.
Qed.

Lemma run_bounded_momentum (frames : list (App.Point2 * R)) (st : State) :
  Forall Controller.nominal frames ->
  (exists ry, group_rotation_y st = Some ry) ->
  Controller.steady st ->
  Controller.bounded_momentum st ->
  Controller.bounded_momentum (Controller.run frames st).
Proof.
  intros Hall. revert st.
  induction Hall as [|[inp dt] rest [Hin Hdt] _ IH]; intros st Hg Hs Hm.
  - exact Hm.
  - cbn [Controller.run]. cbn [fst snd] in Hin, Hdt. apply IH.
    + apply useFrame_group, Hg.
    + apply useFrame_steady; assumption.
    + destruct Hg as [ry Hg].
      apply (useFrame_bounded_momentum inp dt ry); auto. apply Hs.
Qed.

Lemma run_unmounted (frames : list (App.Point2 * R)) (st : State) :
  group_rotation_y st = None ->
  group_rotation_y (Controller.run frames st) = None /\
  velocity (Controller.run frames st) = velocity st /\
  lastX (Controller.run frames st) = lastX st.
Proof.
  revert st. induction frames as [|[inp dt] rest IH]; intros st Hg.
  - auto.
  - cbn [Controller.run].
    assert (Hstep : group_rotation_y (useFrame inp dt st) = None /\
                    velocity (useFrame inp dt st) = velocity st /\
                    lastX (useFrame inp dt st) = lastX st).
    { unfold useFrame. rewrite Hg. auto. }
    destruct Hstep as (Hg' & Hv & Hl).
    destruct (IH _ Hg') as (H1 & H2 & H3).
    rewrite H2, H3, Hv, Hl. auto.
Qed.

End ControllerRuns.

(** X9.  From its initial state, through any sequence of frames whose
    pointer input is in range and whose delta is not negative, the
    controller keeps the smoothed input in [[-1.2, 1.2]] by [[-1, 1]] and
    the camera within 4.8 of the axis across, within 2 up and down, and
    between 32 and 34.4 in depth: the camera never comes closer than where
    it started. *)
Theorem X9_camera_stays_in_its_region :
  forall (frames : list (App.Point2 * R)) (group : option R),
    Forall Controller.nominal frames ->
    let st := Controller.run frames (Experience.init group) in
    Events.pointer_box (Experience.currentInput st) /\
    Controller.camera_box (Experience.camera_position st).
Proof.
  intros frames group Hall st.
  apply (run_steady frames (Experience.init group) Hall), init_steady.
Qed.

(** A sweep to the right edge through a stalled frame, then back. *)
Lemma X9_witness :
  Controller.camera_box
    (Experience.camera_position
       (Controller.run
          [(App.mkPoint2 1.2 1, 0.016); (App.mkPoint2 1.2 1, 3);
           (App.mkPoint2 (-1.2) 0, 0.016)]
          (Experience.init (Some 0)))).
Proof.
  apply X9_camera_stays_in_its_region.
  repeat constructor; cbn; lra.
Defined.

(** X10.  With the rotating group mounted, from the initial state and
    through any sequence of frames whose pointer input is in range and
    whose delta is not negative, the rotation velocity never exceeds 6.84
    in magnitude, however the pointer jumps. *)
Theorem X10_rotation_velocity_bounded :
  forall (frames : list (App.Point2 * R)) (ry : R),
    Forall Controller.nominal frames ->
    Rabs (Experience.velocity
            (Controller.run frames (Experience.init (Some ry))))
    <= 6.84.
Proof.
  intros frames ry Hall.
  apply (run_bounded_momentum frames (Experience.init (Some ry)) Hall).
  - exists ry. reflexivity.
  - apply init_steady.
  - split; [reflexivity|]. cbn. rewrite Rabs_R0. lra.
Qed.

Lemma X10_witness :
  Rabs (Experience.velocity
          (Controller.run
             [(App.mkPoint2 1.2 0, 0.1); (App.mkPoint2 (-1.2) 0, 0.1)]
             (Experience.init (Some 0))))
  <= 6.84.
Proof.
  apply X10_rotation_velocity_bounded.
  repeat constructor; cbn; lra.
Defined.

(** X11.  While the rotating group is not mounted the controller does not
    integrate momentum: through any sequence of frames the group stays
    unmounted and the velocity and the remembered input keep their
    values. *)
Theorem X11_no_momentum_without_group :
  forall (frames : list (App.Point2 * R)) (st : Experience.State),
    Experience.group_rotation_y st = None ->
    let st' := Controller.run frames st in
    Experience.group_rotation_y st' = None /\
    Experience.velocity st' = Experience.velocity st /\
    Experience.lastX st' = Experience.lastX st.
Proof.
  intros frames st Hg st'. apply run_unmounted, Hg.
Qed.

Lemma X11_witness :
  Experience.velocity
    (Controller.run [(App.mkPoint2 1 1, 0.016); (App.mkPoint2 0 1, 0.02)]
                    (Experience.init None))
  = 0.
Proof.
  exact (proj1 (proj2 (X11_no_momentum_without_group
                         [(App.mkPoint2 1 1, 0.016); (App.mkPoint2 0 1, 0.02)]
                         (Experience.init None) eq_refl))).
Defined.

(** ** Geometry of a photo frame *)

Section PhotoGeometry.

Import Ornaments.PhotoFrameMesh.

Lemma or_one_positive (v : option R) : dimension v -> 0 < or_one v.
Proof.
  destruct v as [r|]; cbn; [|lra].
  intros Hr. destruct (Req_dec_T r 0); lra.
Qed.

Lemma geometry_photoArgs (w h : option R) :
  photoArgs (geometry w h)
  = if Rge_dec (or_one w / or_one h) 1
    then (0.85, 0.85 / (or_one w / or_one h))
    else (0.85 * (or_one w / or_one h), 0.85).
Proof.
  unfold geometry. destruct (Rge_dec _ _); reflexivity.
Qed.

Lemma ratio_positive (a b : R) : 0 < a -> 0 < b -> 0 < a / b.
Proof. intros Ha Hb. apply Rdiv_lt_0_compat; assumption. Qed.

End PhotoGeometry.

(** X12.  For an image whose dimensions, where present, are not negative
    (a missing or zero dimension counts as 1), the photo area of the frame
    keeps the image's aspect ratio, its longer side is exactly 0.85 and its
    shorter side is positive and at most 0.85. *)
Theorem X12_photo_area_fits_and_keeps_aspect :
  forall w h : option R,
    Ornaments.PhotoFrameMesh.dimension w ->
    Ornaments.PhotoFrameMesh.dimension h ->
    let g := Ornaments.PhotoFrameMesh.geometry w h in
    let pw := fst (Ornaments.PhotoFrameMesh.photoArgs g) in
    let ph := snd (Ornaments.PhotoFrameMesh.photoArgs g) in
    0 < pw <= 0.85 /\
    0 < ph <= 0.85 /\
    Rmax pw ph = 0.85 /\
    pw * Ornaments.PhotoFrameMesh.or_one h
    = ph * Ornaments.PhotoFrameMesh.or_one w.
Proof.
  intros w h Hw Hh g pw ph.
  pose proof (or_one_positive w Hw) as HW.
  pose proof (or_one_positive h Hh) as HH.
  pose proof (ratio_positive _ _ HW HH) as Ha.
  unfold pw, ph, g. rewrite geometry_photoArgs.
  set (W := Ornaments.PhotoFrameMesh.or_one w) in *.
  set (H := Ornaments.PhotoFrameMesh.or_one h) in *.
  destruct (Rge_dec (W / H) 1) as [Hge|Hlt]; cbn [fst snd].
  - assert (Hq : 0.85 / (W / H) = 0.85 * H / W) by (field; lra).
    assert (Hle : H <= W).
    { assert (E : W = W / H * H) by (field; lra). nra. }
    assert (Hi : 0 < / W) by (apply Rinv_0_lt_compat; exact HW).
    assert (Hs : 0 < 0.85 * H / W <= 0.85).
    { split.
      - unfold Rdiv. nra.
      - apply (Rmult_le_reg_r W); [exact HW|].
        replace (0.85 * H / W * W) with (0.85 * H) by (field; lra). nra. }
    rewrite Hq. repeat split; try lra.
    + unfold Rmax. destruct (Rle_dec _ _); lra.
    + field; lra.
  - assert (Hs : 0 < 0.85 * (W / H) <= 0.85) by nra.
    repeat split; try lra.
    + unfold Rmax. destruct (Rle_dec _ _); lra.
    + field; lra.
Qed.

(** A landscape image of 1600 by 900 pixels. *)
Lemma X12_witness :
  let g := Ornaments.PhotoFrameMesh.geometry (Some 1600) (Some 900) in
  Rmax (fst (Ornaments.PhotoFrameMesh.photoArgs g))
       (snd (Ornaments.PhotoFrameMesh.photoArgs g)) = 0.85.
Proof.
  intros g.
  assert (Hw : Ornaments.PhotoFrameMesh.dimension (Some 1600)) by (cbn; lra).
  assert (Hh : Ornaments.PhotoFrameMesh.dimension (Some 900)) by (cbn; lra).
  exact (proj1 (proj2 (proj2
    (X12_photo_area_fits_and_keeps_aspect (Some 1600) (Some 900) Hw Hh)))).
Defined.

(** X13.  Whatever the image, the frame is the photo area plus margins of
    0.08 on each side and on top and 0.32 below, the photo area sits
    centred across and with its centre 0.12 above the frame's centre, and
    the photo plane lies in front of the frame's front face. *)
Theorem X13_polaroid_margins :
  forall w h : option R,
    let g := Ornaments.PhotoFrameMesh.geometry w h in
    let '(fw, fh, fd) := Ornaments.PhotoFrameMesh.frameArgs g in
    let '(pw, ph) := Ornaments.PhotoFrameMesh.photoArgs g in
    let '(px, py, pz) := Ornaments.PhotoFrameMesh.photoPos g in
    (fw - pw) / 2 = 0.08 /\
    px = 0 /\
    fh / 2 - (py + ph / 2) = 0.08 /\
    (py - ph / 2) - (- (fh / 2)) = 0.32 /\
    py = 0.12 /\
    fd / 2 < pz.
Proof.
  intros w h. unfold Ornaments.PhotoFrameMesh.geometry.
  destruct (Rge_dec _ _); cbn; repeat split; lra.
Qed.

(** ** The rendered photo objects *)

Section PhotoChildren.

Import Ornaments Photos.

Lemma photo_children_nth (imgs : list string) (items : list OrnamentData)
      (i k : nat) (item : OrnamentData) :
  nth_error items k = Some item ->
  nth_error (photo_children imgs items i) k
  = Some (photo_child imgs (i + k) item).
Proof.
  revert i k. induction items as [|a rest IH]; intros i [|k] H;
    cbn in *; try discriminate.
  - injection H as ->. rewrite Nat.add_0_r. reflexivity.
  - rewrite (IH (S i) k H). f_equal. f_equal. lia.
Qed.

Lemma photo_child_item_key (imgs : list string) (i : nat)
      (item : OrnamentData) :
  child_item (photo_child imgs i item) = item /\
  child_key (photo_child imgs i item) = i.
Proof.
  unfold photo_child.
  destruct (0 <? List.length imgs)%nat; [|auto].
  destruct (i <? List.length imgs)%nat; [|auto].
  destruct (nth_error imgs i) as [url|]; [|auto].
  destruct (truthy url); auto.
Qed.

Lemma photo_children_items_keys (imgs : list string)
      (items : list OrnamentData) (i : nat) :
  map child_item (photo_children imgs items i) = items /\
  map child_key (photo_children imgs items i) = seq i (List.length items).
Proof.
  revert i. induction items as [|a rest IH]; intros i; cbn; [auto|].
  destruct (photo_child_item_key imgs i a) as [-> ->].
  destruct (IH (S i)) as [-> ->]. auto.
Qed.

Lemma photo_child_fallback_valid (imgs : list string) (i : nat)
      (item : OrnamentData) (f : nat) :
  child_fallback (photo_child imgs i item) = Some f ->
  f = (i mod fallbackTextures_length)%nat /\ (f < fallbackTextures_length)%nat.
Proof.
  assert (Hlt : (i mod fallbackTextures_length < fallbackTextures_length)%nat)
    by (apply Nat.mod_upper_bound; unfold fallbackTextures_length; lia).
  unfold photo_child.
  destruct (0 <? List.length imgs)%nat;
    [destruct (i <? List.length imgs)%nat;
     [destruct (nth_error imgs i) as [url|]; [destruct (truthy url)|]|]|];
    cbn; intros H; try discriminate; injection H as <-; auto.
Qed.

Lemma photo_child_user_image (imgs : list string) (i : nat)
      (item : OrnamentData) (url : string) :
  nth_error imgs i = Some url -> truthy url = true ->
  photo_child imgs i item = SuspensePhotoOrnament i item url.
Proof.
  intros Hn Ht. unfold photo_child.
  assert (Hi : (i < List.length imgs)%nat)
    by (apply nth_error_Some; congruence).
  replace (0 <? List.length imgs)%nat with true
    by (symmetry; apply Nat.ltb_lt; lia).
  replace (i <? List.length imgs)%nat with true
    by (symmetry; apply Nat.ltb_lt; lia).
  rewrite Hn, Ht. reflexivity.
Qed.

Lemma photo_children_urls (imgs : list string) (items : list OrnamentData)
      (i : nat) (rest : list string) :
  all_truthy rest ->
  List.length items = List.length rest ->
  (forall k url, nth_error rest k = Some url ->
                 nth_error imgs (i + k) = Some url) ->
  map child_url (photo_children imgs items i) = map Some rest.
Proof.
  intros Ht. revert items i.
  induction Ht as [|url rest Hu _ IH]; intros [|a items] i Hlen Hn;
    cbn in *; try discriminate; [reflexivity|].
  rewrite (photo_child_user_image imgs i a url); auto.
  - cbn. f_equal. apply IH; [lia|].
    intros k u Hk. replace (S i + k)%nat with (i + S k)%nat by lia.
    apply Hn. exact Hk.
  - specialize (Hn 0%nat url eq_refl). rewrite Nat.add_0_r in Hn. exact Hn.
Qed.

End PhotoChildren.

(** X14.  No photo object is left out for want of an image: whatever the
    list of image URLs, the rendered photo objects carry the generated
    objects one for one and in order, keyed by their index, and every
    fallback frame uses the design of its index modulo 4, one of the
    four. *)
Theorem X14_every_photo_object_rendered :
  forall (imgs : list string) (data : list Ornaments.OrnamentData),
    let children := Ornaments.photo_children imgs data 0 in
    map Photos.child_item children = data /\
    map Photos.child_key children = seq 0 (List.length data) /\
    (forall k c f,
        nth_error children k = Some c ->
        Photos.child_fallback c = Some f ->
        f = (k mod 4)%nat /\ (f < 4)%nat).
Proof.
  intros imgs data children.
  destruct (photo_children_items_keys imgs data 0) as [Hi Hk].
  split; [exact Hi|]. split; [exact Hk|].
  intros k c f Hc Hf.
  destruct (nth_error data k) as [item|] eqn:Hd.
  - unfold children in Hc.
    rewrite (photo_children_nth imgs data 0 k item Hd) in Hc.
    injection Hc as <-. cbn [Nat.add] in Hf.
    apply (photo_child_fallback_valid imgs k item f Hf).
  - exfalso. apply nth_error_None in Hd.
    assert (Hl : (k < List.length children)%nat)
      by (apply nth_error_Some; congruence).
    unfold children in Hl. rewrite photo_children_length in Hl. lia.
Qed.

(** X15.  When there are as many generated objects as images and every
    URL is a non-empty string, the rendered photo objects load exactly the
    supplied images, each once and in the order supplied. *)
Theorem X15_each_image_shown_once_in_order :
  forall (imgs : list string) (data : list Ornaments.OrnamentData),
    Photos.all_truthy imgs ->
    List.length data = List.length imgs ->
    map Photos.child_url (Ornaments.photo_children imgs data 0)
    = map Some imgs.
Proof.
  intros imgs data Ht Hlen.
  apply photo_children_urls; [exact Ht|exact Hlen|].
  intros k url Hk. exact Hk.
Qed.

Lemma X15_witness :
  let item :=
    Ornaments.mkOrnamentData
      (Three.mkVector3 14 0 0) (Three.mkVector3 0 2 0) (Three.mkEuler 0 0 0)
      (Some "#ffffff"%string) (Three.mkVector3 1 1 1) (Three.mkVector3 3 3 3)
      0.1 in
  map Photos.child_url
      (Ornaments.photo_children ["blob:a"%string; "blob:b"%string]
                                [item; item] 0)
  = [Some "blob:a"%string; Some "blob:b"%string].
Proof.
  intros item.
  apply (X15_each_image_shown_once_in_order
           ["blob:a"%string; "blob:b"%string] [item; item]).
  - repeat constructor.
  - reflexivity.
Defined.

(** ** From the upload to the scene *)

Section UploadToScene.

Import Random.

Variable File : Type.
Variable createObjectURL : File -> string.
Variable generateFoliageData : nat -> R -> R -> Rand (nat -> R).
Variable randomVector3 : R -> Rand Three.Vector3.

Lemma photo_population_children (userImages : option (list string))
      (s : nat -> R) (c : nat) :
  exists data,
    List.length data = Experience.photoCount userImages /\
    fst (Scene.photo_population generateFoliageData randomVector3
           userImages s c)
    = Ornaments.photo_children
        (match userImages with Some imgs => imgs | None => [] end) data 0.
Proof.
  unfold Scene.photo_population, bind.
  pose proof (data_length generateFoliageData randomVector3 Ornaments.PHOTO
                (Experience.photoCount userImages) None None s c) as H.
  destruct (Ornaments.data _ _ _ _ _ _ s c) as [data c'].
  exists data. cbn in *. auto.
Qed.

Lemma photoCount_range (imgs : list string) :
  (List.length imgs <= 30)%nat ->
  (1 <= Experience.photoCount (Some imgs) <= 30)%nat.
Proof.
  intros H. unfold Experience.photoCount.
  destruct imgs as [|a rest]; cbn in *; lia.
Qed.

End UploadToScene.

(** X16.  Uploading a non-empty selection of files whose object URLs are
    non-empty strings makes the scene render one photo object for each of
    the first 30 files, each loading the URL of its file, in the order of
    the selection. *)
Theorem X16_upload_reaches_the_scene :
  forall (File : Type) (createObjectURL : File -> string)
         generateFoliageData randomVector3
         (files : list File) (st : App.State) s c,
    files <> [] ->
    (forall f, Ornaments.truthy (createObjectURL f) = true) ->
    let st' := App.handleFileChange File createObjectURL (Some files) st in
    let children :=
      fst (Scene.photo_population generateFoliageData randomVector3
             (Some (App.userImages st')) s c) in
    List.length children = Nat.min 30 (List.length files) /\
    map Photos.child_url children
    = map (fun f => Some (createObjectURL f)) (firstn 30 files).
Proof.
  intros File url gen rv files st s c Hne Hurl st' children.
  assert (Himgs : App.userImages st' = map url (firstn 30 files)).
  { unfold st', App.handleFileChange.
    destruct files as [|f fs]; [contradiction|]. reflexivity. }
  assert (Hpos : App.userImages st' <> []).
  { rewrite Himgs. destruct files as [|f fs]; [contradiction|].
    cbn. discriminate. }
  destruct (photo_population_children gen rv (Some (App.userImages st')) s c)
    as (data & Hlen & Hch).
  fold children in Hch.
  assert (Hcount : Experience.photoCount (Some (App.userImages st'))
                   = List.length (App.userImages st')).
  { unfold Experience.photoCount.
    destruct (App.userImages st'); [contradiction|reflexivity]. }
  rewrite Hcount in Hlen. split.
  - rewrite Hch, photo_children_length, Hlen, Himgs.
    rewrite length_map, length_firstn. reflexivity.
  - rewrite Hch,
      (photo_children_urls (App.userImages st') data 0 (App.userImages st')).
    + rewrite Himgs, map_map. reflexivity.
    + rewrite Himgs. apply Forall_map, Forall_forall. intros f _. apply Hurl.
    + exact Hlen.
    + intros k u Hk. exact Hk.
Qed.

(** Two files uploaded into the initial application. *)
Lemma X16_witness :
  let url := fun n : nat => "blob:file"%string in
  let children :=
    fst (Scene.photo_population
           (fun _ _ _ => Random.ret (fun _ => 0))
           (fun _ => Random.ret (Three.mkVector3 0 0 0))
           (Some (App.userImages
                    (App.handleFileChange nat url (Some [1%nat; 2%nat])
                                          App.init)))
           (fun _ => 1 / 2) 0%nat) in
  List.length children = 2%nat.
Proof.
  intros url children.
  assert (Hne : [1%nat; 2%nat] <> []) by discriminate.
  assert (Hurl : forall f : nat, Ornaments.truthy (url f) = true)
    by reflexivity.
  exact (proj1 (X16_upload_reaches_the_scene nat url _ _ [1%nat; 2%nat]
                  App.init (fun _ => 1 / 2) 0%nat Hne Hurl)).
Defined.

(** X17.  Whatever events reach the application, the scene renders at
    least one and at most 30 photo objects. *)
Theorem X17_photo_population_between_1_and_30 :
  forall (File : Type) (createObjectURL : File -> string)
         generateFoliageData randomVector3
         (events : list (Events.Event File)) s c,
    let st := Events.run File createObjectURL events App.init in
    let children :=
      fst (Scene.photo_population generateFoliageData randomVector3
             (Some (App.userImages st)) s c) in
    (1 <= List.length children <= 30)%nat.
Proof.
  intros File url gen rv events s c st children.
  unfold children. rewrite photo_population_length.
  apply photoCount_range.
  apply (run_keeps File url
           (fun st => (List.length (App.userImages st) <= 30)%nat)).
  - apply handle_keeps_image_cap.
  - cbn. lia.
Qed.

(** ** The generated objects *)

Section Generated.

Import Random Three Ornaments.

Variable generateFoliageData : nat -> R -> R -> Rand (nat -> R).
Variable randomVector3 : R -> Rand Vector3.

(** The [k]-th object of the loop is what one iteration makes at index
    [i + k], from some cursor into the draws. *)
Lemma data_loop_nth (type : OrnamentType) (colors : option (list string))
      (scale : R) (target : nat -> R) (n i k : nat) (s : nat -> R) (c : nat)
      (item : OrnamentData) :
  nth_error (fst (data_loop randomVector3 type colors scale target n i s c)) k
  = Some item ->
  exists c',
    item = fst (data_item randomVector3 type colors scale target (i + k) s c').
Proof.
  revert i k c. induction n as [|n IH]; intros i k c Hk.
  - destruct k; discriminate.
  - cbn [data_loop] in Hk. unfold bind at 1 in Hk.
    destruct (data_item randomVector3 type colors scale target i s c)
      as [it c1] eqn:Eit.
    unfold bind at 1 in Hk. specialize (IH (S i)).
    destruct (data_loop randomVector3 type colors scale target n (S i) s c1)
      as [rest c2] eqn:Erest.
    cbn in Hk. destruct k as [|k]; cbn in Hk.
    + injection Hk as <-. exists c. rewrite Nat.add_0_r, Eit. reflexivity.
    + specialize (IH k c1). rewrite Erest in IH.
      destruct (IH Hk) as [c' Hc']. exists c'.
      replace (i + S k)%nat with (S i + k)%nat by lia. exact Hc'.
Qed.

Lemma data_nth (type : OrnamentType) (count : nat)
      (colors : option (list string)) (scale : option R)
      (s : nat -> R) (c k : nat) (item : OrnamentData) :
  nth_error
    (fst (data generateFoliageData randomVector3 type count colors scale s c))
    k = Some item ->
  exists c',
    item
    = fst (data_item randomVector3 type colors
             (match scale with Some v => v | None => 1 end)
             (fst (generateFoliageData count 18 7 s c)) k s c').
Proof.
  unfold data, bind.
  destruct (generateFoliageData count 18 7 s c) as [target c1].
  intros Hk. apply (data_loop_nth _ _ _ _ _ 0 k s c1 item Hk).
Qed.

(** The fields of the object one iteration makes, with the draws they
    come from. *)
Lemma data_item_fields (type : OrnamentType) (colors : option (list string))
      (scale : R) (target : nat -> R) (i : nat) (s : nat -> R) (c : nat) :
  let item := fst (data_item randomVector3 type colors scale target i s c) in
  targetPos item
  = multiplyScalar
      (mkVector3 (target (i * 3)%nat) (target (i * 3 + 1)%nat)
                 (target (i * 3 + 2)%nat))
      (pushOut type) /\
  (exists n, color item = fst (pick_color colors s n)) /\
  (exists n,
      targetScale item
      = multiplyScalar (baseScaleVec type) (scale * (s n * 0.4 + 0.8))) /\
  (exists n1 n2, rotation item = mkEuler (s n1 * PI) (s n2 * PI) 0) /\
  (if type_eqb type PHOTO
   then exists n1 n2,
       chaosScale item = multiplyScalar (targetScale item) (2.5 + s n1 * 1.0)
       /\ chaosTilt item = (s n2 - 0.5) * 0.5
   else chaosScale item = targetScale item /\ chaosTilt item = 0).
Proof.
  cbv zeta. unfold data_item, chaos_of, chaos_scale_of.
  destruct (type_eqb type PHOTO) eqn:Hp; unfold bind, random, ret.
  - rewrite photo_chaos_draws.
    destruct (pick_color colors s (S (S (S (S c))))) as [col c2] eqn:Ec.
    cbn. repeat split.
    + exists (S (S (S (S c)))). rewrite Ec. reflexivity.
    + exists c2. reflexivity.
    + exists (S (S c2)), (S (S (S c2))). reflexivity.
    + exists (S c2), (S (S (S c))). split; reflexivity.
  - destruct (randomVector3 25 s c) as [p c1] eqn:Er.
    destruct (pick_color colors s c1) as [col c2] eqn:Ec.
    cbn. repeat split.
    + exists c1. rewrite Ec. reflexivity.
    + exists c2. reflexivity.
    + exists (S c2), (S (S c2)). reflexivity.
Qed.

Lemma floor_index (u : R) (n : nat) :
  0 <= u < 1 -> (0 < n)%nat ->
  (Z.to_nat (Int_part (u * INR n)) < n)%nat.
Proof.
  intros Hu Hn.
  assert (Hpos : 0 < INR n) by (apply lt_0_INR; exact Hn).
  destruct (base_Int_part (u * INR n)) as [Hlo Hhi].
  assert (Hlt : IZR (Int_part (u * INR n)) < IZR (Z.of_nat n)).
  { rewrite <- INR_IZR_INZ. nra. }
  assert (Hge : IZR (-1) < IZR (Int_part (u * INR n))).
  { replace (IZR (-1)) with (-1) by reflexivity. nra. }
  apply lt_IZR in Hlt, Hge. lia.
Qed.

Lemma pick_color_from_palette (colors : option (list string))
      (s : nat -> R) (n : nat) :
  draws_in_unit s ->
  match colors with
  | None => fst (pick_color colors s n) = Some "#ffffff"%string
  | Some [] => fst (pick_color colors s n) = None
  | Some cs =>
      exists col, fst (pick_color colors s n) = Some col /\ In col cs
  end.
Proof.
  intros Hs. destruct colors as [[|a cs]|]; [| |reflexivity];
    unfold pick_color, bind, random, ret; cbn [fst].
  - destruct (Z.to_nat _); reflexivity.
  - set (k := Z.to_nat (Int_part (s n * INR (List.length (a :: cs))))).
    assert (Hk : (k < List.length (a :: cs))%nat).
    { apply (floor_index (s n) (List.length (a :: cs))); [apply Hs|cbn; lia]. }
    destruct (nth_error (a :: cs) k) as [col|] eqn:Hn.
    + exists col. split; [reflexivity|]. apply (nth_error_In _ _ Hn).
    + apply nth_error_None in Hn. lia.
Qed.

End Generated.

(** X18.  Every generated object has the base shape of its kind scaled
    by the [scale] prop (1 when absent) and by a factor drawn in
    [[0.8, 1.2)] as target scale.  A photo is a further 2.5 to 3.5 times
    larger when scattered; an object of any other kind has the same scale
    scattered and formed. *)
Theorem X18_generated_scales :
  forall generateFoliageData randomVector3 type count colors scale s c
         i item,
    Random.draws_in_unit s ->
    nth_error
      (fst (Ornaments.data generateFoliageData randomVector3 type count
              colors scale s c)) i = Some item ->
    (exists rs,
        0.8 <= rs < 1.2 /\
        Ornaments.targetScale item
        = Three.multiplyScalar (Ornaments.baseScaleVec type)
            (match scale with Some v => v | None => 1 end * rs)) /\
    (if Ornaments.type_eqb type Ornaments.PHOTO
     then exists ps,
         2.5 <= ps < 3.5 /\
         Ornaments.chaosScale item
         = Three.multiplyScalar (Ornaments.targetScale item) ps
     else Ornaments.chaosScale item = Ornaments.targetScale item).
Proof.
  intros gen rv type count colors scale s c i item Hs Hi.
  destruct (data_nth gen rv type count colors scale s c i item Hi)
    as [c' ->].
  destruct (data_item_fields rv type colors
              (match scale with Some v => v | None => 1 end)
              (fst (gen count 18 7 s c)) i s c')
    as (_ & _ & [n Hts] & _ & Hch).
  split.
  - exists (s n * 0.4 + 0.8). split; [|exact Hts].
    pose proof (Hs n). lra.
  - destruct (Ornaments.type_eqb type Ornaments.PHOTO).
    + destruct Hch as (n1 & _ & Hcs & _).
      exists (2.5 + s n1 * 1.0). split; [|exact Hcs].
      pose proof (Hs n1). lra.
    + apply Hch.
Qed.

Lemma X18_witness :
  Forall
    (fun item => Ornaments.chaosScale item = Ornaments.targetScale item)
    (fst (Ornaments.data
            (fun _ _ _ => Random.ret (fun _ => 1))
            (fun _ => Random.ret (Three.mkVector3 0 0 0))
            Ornaments.CANDY 3 None (Some 0.4) (fun _ => 1 / 2) 0%nat)).
Proof.
  apply Forall_forall. intros item Hin.
  destruct (In_nth_error _ _ Hin) as [i Hi].
  assert (Hs : Random.draws_in_unit (fun _ : nat => 1 / 2)).
  { intros n. lra. }
  exact (proj2 (X18_generated_scales _ _ Ornaments.CANDY 3 None (Some 0.4)
                  _ 0%nat i item Hs Hi)).
Defined.

(** X19.  Every generated object has a baseline rotation with [x] and [y]
    angles in [[0, pi)] and a zero [z] angle.  The tilt of a photo lies in
    [[-0.25, 0.25)] radians; an object of any other kind has no tilt. *)
Theorem X19_generated_rotation_and_tilt :
  forall generateFoliageData randomVector3 type count colors scale s c
         i item,
    Random.draws_in_unit s ->
    nth_error
      (fst (Ornaments.data generateFoliageData randomVector3 type count
              colors scale s c)) i = Some item ->
    0 <= Three.ex (Ornaments.rotation item) < PI /\
    0 <= Three.ey (Ornaments.rotation item) < PI /\
    Three.ez (Ornaments.rotation item) = 0 /\
    (if Ornaments.type_eqb type Ornaments.PHOTO
     then -0.25 <= Ornaments.chaosTilt item < 0.25
     else Ornaments.chaosTilt item = 0).
Proof.
  intros gen rv type count colors scale s c i item Hs Hi.
  destruct (data_nth gen rv type count colors scale s c i item Hi)
    as [c' ->].
  destruct (data_item_fields rv type colors
              (match scale with Some v => v | None => 1 end)
              (fst (gen count 18 7 s c)) i s c')
    as (_ & _ & _ & (n1 & n2 & Hrot) & Hch).
  rewrite Hrot. cbn [Three.ex Three.ey Three.ez].
  pose proof (Hs n1) as H1. pose proof (Hs n2) as H2.
  pose proof PI_RGT_0 as Hpi.
  repeat split; try nra.
  destruct (Ornaments.type_eqb type Ornaments.PHOTO).
  - destruct Hch as (m1 & m2 & _ & ->). pose proof (Hs m2). lra.
  - apply Hch.
Qed.

Lemma X19_witness :
  Forall
    (fun item => -0.25 <= Ornaments.chaosTilt item < 0.25)
    (fst (Ornaments.data
            (fun _ _ _ => Random.ret (fun _ => 1))
            (fun _ => Random.ret (Three.mkVector3 0 0 0))
            Ornaments.PHOTO 3 None None (fun _ => 1 / 4) 0%nat)).
Proof.
  apply Forall_forall. intros item Hin.
  destruct (In_nth_error _ _ Hin) as [i Hi].
  assert (Hs : Random.draws_in_unit (fun _ : nat => 1 / 4)).
  { intros n. lra. }
  exact (proj2 (proj2 (proj2
    (X19_generated_rotation_and_tilt _ _ Ornaments.PHOTO 3 None None
       _ 0%nat i item Hs Hi)))).
Defined.

(** X20.  The colour of a generated object is always one of the colours
    of its palette when the palette has any; it is white when no palette
    is given, and undefined when the palette is empty.  The random index
    never falls outside the palette. *)
Theorem X20_generated_colour_from_palette :
  forall generateFoliageData randomVector3 type count colors scale s c
         i item,
    Random.draws_in_unit s ->
    nth_error
      (fst (Ornaments.data generateFoliageData randomVector3 type count
              colors scale s c)) i = Some item ->
    match colors with
    | None => Ornaments.color item = Some "#ffffff"%string
    | Some [] => Ornaments.color item = None
    | Some cs => exists col, Ornaments.color item = Some col /\ In col cs
    end.
Proof.
  intros gen rv type count colors scale s c i item Hs Hi.
  destruct (data_nth gen rv type count colors scale s c i item Hi)
    as [c' ->].
  destruct (data_item_fields rv type colors
              (match scale with Some v => v | None => 1 end)
              (fst (gen count 18 7 s c)) i s c')
    as (_ & [n Hcol] & _).
  rewrite Hcol. apply pick_color_from_palette, Hs.
Qed.

Lemma X20_witness :
  Forall
    (fun item =>
       exists col,
         Ornaments.color item = Some col /\
         In col ["#D4AF37"%string; "#E5E4E2"%string])
    (fst (Ornaments.data
            (fun _ _ _ => Random.ret (fun _ => 1))
            (fun _ => Random.ret (Three.mkVector3 0 0 0))
            Ornaments.STAR 3
            (Some ["#D4AF37"%string; "#E5E4E2"%string]) (Some 0.5)
            (fun _ => 3 / 4) 0%nat)).
Proof.
  apply Forall_forall. intros item Hin.
  destruct (In_nth_error _ _ Hin) as [i Hi].
  assert (Hs : Random.draws_in_unit (fun _ : nat => 3 / 4)).
  { intros n. lra. }
  exact (X20_generated_colour_from_palette _ _ Ornaments.STAR 3
           (Some ["#D4AF37"%string; "#E5E4E2"%string]) (Some 0.5)
           _ 0%nat i item Hs Hi).
Defined.

(** X21.  The [i]-th generated object is formed at the [i]-th point of
    the generated foliage layout, pushed away from the origin by the
    factor 1.15 for a star and 1.08 for any other kind. *)
Theorem X21_generated_target_position :
  forall generateFoliageData randomVector3 type count colors scale s c
         i item,
    nth_error
      (fst (Ornaments.data generateFoliageData randomVector3 type count
              colors scale s c)) i = Some item ->
    let target := fst (generateFoliageData count 18 7 s c) in
    let factor :=
      match type with Ornaments.STAR => 1.15 | _ => 1.08 end in
    Ornaments.targetPos item
    = Three.mkVector3 (target (i * 3)%nat * factor)
                      (target (i * 3 + 1)%nat * factor)
                      (target (i * 3 + 2)%nat * factor).
Proof.
  intros gen rv type count colors scale s c i item Hi target factor.
  destruct (data_nth gen rv type count colors scale s c i item Hi)
    as [c' ->].
  destruct (data_item_fields rv type colors
              (match scale with Some v => v | None => 1 end)
              (fst (gen count 18 7 s c)) i s c')
    as (Htp & _).
  rewrite Htp. unfold factor, target. destruct type; reflexivity.
Qed.

Lemma X21_witness :
  Forall
    (fun item =>
       Ornaments.targetPos item
       = Three.mkVector3 (1 * 1.15) (1 * 1.15) (1 * 1.15))
    (fst (Ornaments.data
            (fun _ _ _ => Random.ret (fun _ => 1))
            (fun _ => Random.ret (Three.mkVector3 0 0 0))
            Ornaments.STAR 2 None None (fun _ => 1 / 2) 0%nat)).
Proof.
  apply Forall_forall. intros item Hin.
  destruct (In_nth_error _ _ Hin) as [i Hi].
  exact (X21_generated_target_position _ _ Ornaments.STAR 2 None None
           _ 0%nat i item Hi).
Defined.

Section GeneratedAndRendered.

Import Three.

Lemma lerpVectors_same (a : Vector3) (t : R) : lerpVectors a a t = a.
Proof.
  destruct a as [ax ay az]. unfold lerpVectors. cbn. f_equal; ring.
Qed.

End GeneratedAndRendered.

(** X22.  An instanced population renders every generated object at its
    target scale on every frame, whatever the blend: outside the photos,
    morphing moves and turns the objects but never resizes them. *)
Theorem X22_instanced_objects_never_resized :
  forall generateFoliageData randomVector3 type count colors scale s c
         mix dt st buf i item,
    Ornaments.type_eqb type Ornaments.PHOTO = false ->
    let data :=
      fst (Ornaments.data generateFoliageData randomVector3 type count
             colors scale s c) in
    Ornaments.mesh st = Some buf ->
    (count <= List.length buf)%nat ->
    nth_error data i = Some item ->
    option_map Three.scale
      (InstancedMesh.instance
         (Ornaments.mesh (Ornaments.useFrame type data mix dt st)) i)
    = Some (Ornaments.targetScale item).
Proof.
  intros gen rv type count colors scale s c mix dt st buf i item Hty data
         Hmesh Hlen Hi.
  assert (Hdl : List.length data = count) by apply data_length.
  pose proof (ornaments_useFrame_instance type data mix dt st buf i item
                Hty Hmesh ltac:(lia) Hi) as Hinst.
  cbv zeta in Hinst. rewrite Hinst. cbn [option_map].
  rewrite ornaments_frame_item_scale.
  destruct (data_nth gen rv type count colors scale s c i item Hi)
    as [c' Hit].
  pose proof (data_item_fields rv type colors
                (match scale with Some v => v | None => 1 end)
                (fst (gen count 18 7 s c)) i s c') as Hf.
  cbv zeta in Hf. rewrite <- Hit in Hf.
  destruct Hf as (_ & _ & _ & _ & Hch). rewrite Hty in Hch.
  destruct Hch as [-> _]. rewrite lerpVectors_same. reflexivity.
Qed.

(** Two balls after a frame of 0.3 s toward the scattered state. *)
Lemma X22_witness :
  let data :=
    fst (Ornaments.data
           (fun _ _ _ => Random.ret (fun _ => 1))
           (fun _ => Random.ret (Three.mkVector3 20 0 0))
           Ornaments.BALL 2 None (Some 0.5) (fun _ => 1 / 2) 0%nat) in
  let st' :=
    Ornaments.useFrame Ornaments.BALL data 0 0.3 (Ornaments.init 2 true) in
  exists item,
    nth_error data 1 = Some item /\
    option_map Three.scale (InstancedMesh.instance (Ornaments.mesh st') 1)
    = Some (Ornaments.targetScale item).
Proof.
  intros data st'.
  destruct (nth_error data 1) as [item|] eqn:Hi.
  - exists item. split; [reflexivity|].
    apply (X22_instanced_objects_never_resized
             (fun _ _ _ => Random.ret (fun _ => 1))
             (fun _ => Random.ret (Three.mkVector3 20 0 0))
             Ornaments.BALL 2 None (Some 0.5) (fun _ => 1 / 2) 0%nat
             0 0.3 (Ornaments.init 2 true) (InstancedMesh.new_buffer 2)
             1%nat item);
      try reflexivity.
    exact Hi.
  - exfalso. apply nth_error_None in Hi.
    unfold data in Hi. rewrite data_length in Hi. lia.
Defined.

(** ** Orientation of the other kinds, layout effects, instance counts *)

Section FramesAndLayouts.

Import Three InstancedMesh.

Lemma spiral_layout_instance (target : nat -> R) (st : SpiralLights.State)
      (buf : Buffer) (i : nat) :
  SpiralLights.mesh st = Some buf ->
  (SpiralLights.count <= List.length buf)%nat ->
  (i < SpiralLights.count)%nat ->
  exists m,
    instance (SpiralLights.mesh (SpiralLights.useLayoutEffect target st)) i
    = Some m /\
    position m = SpiralLights.targetAt target i /\
    scale m = setScalar 0.12.
Proof.
  intros Hmesh Hlen Hi.
  unfold SpiralLights.useLayoutEffect. rewrite Hmesh.
  destruct (SpiralLights.layout_loop _ _ _) as [d buf'] eqn:E. cbn.
  unfold SpiralLights.layout_loop in E.
  destruct (forEach_write_nth _
              (fun (i : nat) (_ : nat) => SpiralLights.layout_item target i)
              (seq 0 SpiralLights.count) 0 i (SpiralLights.dummy st) buf i)
    as [d' Hd'].
  - rewrite nth_error_nth' with (d := 0%nat) by (rewrite length_seq; lia).
    rewrite seq_nth by lia. reflexivity.
  - rewrite length_seq. cbn. lia.
  - rewrite E in Hd'. cbn in Hd'. eexists. split; [exact Hd'|].
    split; reflexivity.
Qed.

Lemma ornaments_useFrame_count (type : Ornaments.OrnamentType)
      (data : list Ornaments.OrnamentData) (mix dt : R)
      (st : Ornaments.State) :
  option_map (@List.length Object3D)
             (Ornaments.mesh (Ornaments.useFrame type data mix dt st))
  = option_map (@List.length Object3D) (Ornaments.mesh st).
Proof.
  unfold Ornaments.useFrame.
  destruct (Ornaments.mesh st) as [buf|] eqn:Hm; [|rewrite Hm; reflexivity].
  destruct (Ornaments.type_eqb type Ornaments.PHOTO);
    [rewrite Hm; reflexivity|].
  pose proof (forEach_write_length _
                (fun (_ : nat) item =>
                   Ornaments.frame_item type
                     (UtilsMath.lerp (Ornaments.currentMixRef st) mix
                                     (2.0 * dt)) item)
                data 0 (Ornaments.dummy st) buf) as Hl.
  unfold Ornaments.frame_forEach.
  destruct (forEach_write _ _ _ _ _) as [d buf']. cbn in *.
  rewrite Hl. reflexivity.
Qed.

Lemma spiral_useFrame_count (target chaos : nat -> R) (mix time dt : R)
      (st : SpiralLights.State) :
  option_map (@List.length Object3D)
             (SpiralLights.mesh
                (SpiralLights.useFrame target chaos mix time dt st))
  = option_map (@List.length Object3D) (SpiralLights.mesh st).
Proof.
  unfold SpiralLights.useFrame.
  destruct (SpiralLights.mesh st) as [buf|] eqn:Hm; [|rewrite Hm; reflexivity].
  pose proof (forEach_write_length _
                (fun (i : nat) (_ : nat) =>
                   SpiralLights.frame_item target chaos
                     (UtilsMath.lerp (SpiralLights.currentMixRef st) mix
                                     (2.0 * dt)) time i)
                (seq 0 SpiralLights.count) 0 (SpiralLights.dummy st) buf)
    as Hl.
  unfold SpiralLights.frame_loop.
  destruct (forEach_write _ _ _ _ _) as [d buf']. cbn in *.
  rewrite Hl. reflexivity.
Qed.

End FramesAndLayouts.

(** X23.  An instanced object that is not a star keeps its baseline
    rotation on every frame, whatever the blend. *)
Theorem X23_other_kinds_keep_baseline_rotation :
  forall type data mix dt st buf i item,
    Ornaments.type_eqb type Ornaments.PHOTO = false ->
    Ornaments.type_eqb type Ornaments.STAR = false ->
    Ornaments.mesh st = Some buf ->
    (List.length data <= List.length buf)%nat ->
    nth_error data i = Some item ->
    option_map Three.orientation
      (InstancedMesh.instance
         (Ornaments.mesh (Ornaments.useFrame type data mix dt st)) i)
    = Some (Three.FromEuler (Ornaments.rotation item)).
Proof.
  intros type data mix dt st buf i item Hp Hs Hmesh Hlen Hi.
  pose proof (ornaments_useFrame_instance type data mix dt st buf i item
                Hp Hmesh Hlen Hi) as Hinst.
  cbv zeta in Hinst. rewrite Hinst. cbn [option_map].
  unfold Ornaments.frame_item. rewrite Hs. reflexivity.
Qed.

Lemma X23_witness :
  let item :=
    Ornaments.mkOrnamentData
      (Three.mkVector3 10 0 0) (Three.mkVector3 0 2 0) (Three.mkEuler 1 2 0)
      None (Three.mkVector3 1 1 1) (Three.mkVector3 1 1 1) 0 in
  option_map Three.orientation
    (InstancedMesh.instance
       (Ornaments.mesh
          (Ornaments.useFrame Ornaments.BOX [item] 1 0.016
             (Ornaments.init 1 true))) 0)
  = Some (Three.FromEuler (Three.mkEuler 1 2 0)).
Proof.
  intros item.
  apply (X23_other_kinds_keep_baseline_rotation Ornaments.BOX [item] 1 0.016
           (Ornaments.init 1 true) (InstancedMesh.new_buffer 1) 0%nat item);
    reflexivity.
Defined.

(** X24.  After a frame of a mounted photo frame with blend [t]: when
    [t > 0.8] the group looks at the point of the vertical axis at its own
    height and is then turned by pi about its [y] axis, so that it faces
    away from the axis; when [t <= 0.8] it looks at the camera. *)
Theorem X24_photo_orientation :
  forall item mix cam dt st g rz,
    Ornaments.PhotoFrameMesh.group st = Some g ->
    Ornaments.PhotoFrameMesh.inner_rotation_z st = Some rz ->
    let st' := Ornaments.PhotoFrameMesh.useFrame item mix cam dt st in
    let t := Ornaments.PhotoFrameMesh.currentMixRef st' in
    exists g',
      Ornaments.PhotoFrameMesh.group st' = Some g' /\
      (0.8 < t ->
       Three.orientation g'
       = Three.RotateY
           (Three.LookAt (Three.position g')
              (Three.mkVector3 0 (Three.y (Three.position g')) 0)) PI) /\
      (t <= 0.8 ->
       Three.orientation g' = Three.LookAt (Three.position g') cam).
Proof.
  intros item mix cam dt st g rz Hg Hrz st' t.
  unfold t, st', Ornaments.PhotoFrameMesh.useFrame, Ornaments.gtb.
  rewrite Hg, Hrz.
  destruct (Rlt_dec 0.8 _) as [Hlt|Hnlt]; cbn;
    eexists; (split; [reflexivity|]); split; intros H;
    try reflexivity; lra.
Qed.

Lemma X24_witness :
  let item :=
    Ornaments.mkOrnamentData
      (Three.mkVector3 14 3 0) (Three.mkVector3 3 6 4) (Three.mkEuler 0 0 0)
      None (Three.mkVector3 1 1 1) (Three.mkVector3 3 3 3) 0.1 in
  exists g',
    Ornaments.PhotoFrameMesh.group
      (Ornaments.PhotoFrameMesh.useFrame item 1 (Three.mkVector3 0 0 32)
         0.016 (Ornaments.PhotoFrameMesh.init true)) = Some g'.
Proof.
  intros item.
  destruct (X24_photo_orientation item 1 (Three.mkVector3 0 0 32) 0.016
              (Ornaments.PhotoFrameMesh.init true) Three.new_Object3D 0
              eq_refl eq_refl) as (g' & Hg' & _).
  exists g'. exact Hg'.
Defined.

(** X25.  The layout effect of an instanced population writes every
    object at its target: target position, baseline rotation and target
    scale; it leaves the blend as it was. *)
Theorem X25_ornaments_layout_effect_forms_the_tree :
  forall type data st buf i item,
    Ornaments.type_eqb type Ornaments.PHOTO = false ->
    Ornaments.mesh st = Some buf ->
    (List.length data <= List.length buf)%nat ->
    nth_error data i = Some item ->
    let st' := Ornaments.useLayoutEffect type data st in
    InstancedMesh.instance (Ornaments.mesh st') i
    = Some (Three.mkObject3D (Ornaments.targetPos item)
              (Three.FromEuler (Ornaments.rotation item))
              (Ornaments.targetScale item)) /\
    Ornaments.currentMixRef st' = Ornaments.currentMixRef st.
Proof.
  intros type data st buf i item Hty Hmesh Hlen Hi st'. split.
  - apply (ornaments_layout_instance type data st buf i item); assumption.
  - unfold st', Ornaments.useLayoutEffect. rewrite Hmesh, Hty.
    destruct (Ornaments.layout_forEach _ _ _). reflexivity.
Qed.

Lemma X25_witness :
  let item :=
    Ornaments.mkOrnamentData
      (Three.mkVector3 10 0 0) (Three.mkVector3 0 2 0) (Three.mkEuler 1 2 0)
      None (Three.mkVector3 0.5 0.5 0.5) (Three.mkVector3 0.5 0.5 0.5) 0 in
  InstancedMesh.instance
    (Ornaments.mesh
       (Ornaments.useLayoutEffect Ornaments.BALL [item]
          (Ornaments.init 1 true))) 0
  = Some (Three.mkObject3D (Three.mkVector3 0 2 0)
            (Three.FromEuler (Three.mkEuler 1 2 0))
            (Three.mkVector3 0.5 0.5 0.5)).
Proof.
  intros item.
  apply (X25_ornaments_layout_effect_forms_the_tree Ornaments.BALL [item]
           (Ornaments.init 1 true) (InstancedMesh.new_buffer 1) 0%nat item);
    reflexivity.
Defined.

(** X26.  The layout effect of the spiral strip writes each of the 420
    lights at its target position with the uniform scale 0.12. *)
Theorem X26_spiral_layout_effect :
  forall target st buf i,
    SpiralLights.mesh st = Some buf ->
    (SpiralLights.count <= List.length buf)%nat ->
    (i < 420)%nat ->
    exists m,
      InstancedMesh.instance
        (SpiralLights.mesh (SpiralLights.useLayoutEffect target st)) i
      = Some m /\
      Three.position m
      = Three.mkVector3 (target (i * 3)%nat) (target (i * 3 + 1)%nat)
                        (target (i * 3 + 2)%nat) /\
      Three.scale m = Three.mkVector3 0.12 0.12 0.12.
Proof.
  intros target st buf i Hmesh Hlen Hi.
  apply (spiral_layout_instance target st buf i); assumption.
Qed.

Lemma X26_witness :
  exists m,
    InstancedMesh.instance
      (SpiralLights.mesh
         (SpiralLights.useLayoutEffect (fun n => INR n)
            (SpiralLights.init true))) 419
    = Some m /\
    Three.scale m = Three.mkVector3 0.12 0.12 0.12.
Proof.
  destruct (X26_spiral_layout_effect (fun n => INR n) (SpiralLights.init true)
              (InstancedMesh.new_buffer SpiralLights.count) 419%nat)
    as (m & Hm & _ & Hs).
  - reflexivity.
  - rewrite new_buffer_length. apply le_n.
  - unfold lt. apply Nat.leb_le. reflexivity.
  - exists m. split; assumption.
Defined.

(** X27.  A frame never changes how many instances a mesh holds, for an
    instanced population and for the spiral strip alike; and the frame
    callback of an [Ornaments] component does nothing at all when its mesh
    is not mounted or its type is PHOTO. *)
Theorem X27_frames_keep_instance_count :
  (forall type data mix dt st,
      option_map (@List.length Three.Object3D)
        (Ornaments.mesh (Ornaments.useFrame type data mix dt st))
      = option_map (@List.length Three.Object3D) (Ornaments.mesh st)) /\
  (forall target chaos mix time dt st,
      option_map (@List.length Three.Object3D)
        (SpiralLights.mesh
           (SpiralLights.useFrame target chaos mix time dt st))
      = option_map (@List.length Three.Object3D) (SpiralLights.mesh st)) /\
  (forall type data mix dt st,
      Ornaments.mesh st = None \/ type = Ornaments.PHOTO ->
      Ornaments.useFrame type data mix dt st = st).
Proof.
  split; [|split].
  - apply ornaments_useFrame_count.
  - apply spiral_useFrame_count.
  - intros type data mix dt st [Hm| ->]; unfold Ornaments.useFrame.
    + rewrite Hm. reflexivity.
    + destruct (Ornaments.mesh st); reflexivity.
Qed.

Lemma X27_witness :
  Ornaments.useFrame Ornaments.PHOTO [] 0 0.3 (Ornaments.init 10 true)
  = Ornaments.init 10 true.
Proof.
  destruct X27_frames_keep_instance_count as (_ & _ & H).
  apply H. right. reflexivity.
Defined.
